(** * Currency Exchange API gateway (src/main.py): model and properties

    The FastAPI handlers of [src/main.py] are embedded as programs of a small
    free monad: every call that leaves the process ([requests.get], the
    imports of the optional [database] module, the storage functions,
    [os.getenv]) is an effect answered by the environment, and a handler is
    the tree of what it does with each possible answer.  The properties are
    then proved for every environment. *)

From Stdlib Require Import ZArith String Ascii List Bool Lia.
From Stdlib Require Import PrimFloat SpecFloat FloatOps FloatAxioms.
From Stdlib Require DecimalString.
Import ListNotations.

Local Set Warnings "-register-all".
Local Open Scope string_scope.
Local Open Scope Z_scope.

(** ** Python values *)

(** The values the handlers touch: JSON data decoded by [r.json()], and the
    two storage types that [serialize] singles out.  A Python [float] is an
    IEEE-754 binary64, i.e. a primitive float.  A [dict] keeps insertion
    order and is an association list.  A [datetime] is represented by its
    [isoformat()] rendering and an [ObjectId] by its hexadecimal form, the
    only observations the handlers make of them.  Strings are sequences of
    one-byte characters (ASCII text). *)
Inductive pyval : Type :=
| PNone
| PBool (b : bool)
| PInt (z : Z)
| PFloat (f : float)
| PStr (s : string)
| PList (l : list pyval)
| PDict (d : list (string * pyval))
| PObjectId (hex : string)
| PDatetime (iso : string).

Definition pydict : Type := list (string * pyval).

(** Exception classes that the handlers tell apart ([except ImportError],
    [except requests.RequestException]) or that the built-ins raise. *)
Inductive exc_class : Type :=
| ImportError
| RequestException
| AttributeError
| TypeError
| ValueError
| OverflowError
| OtherError (name : string).

(** A raised library exception [e]; [err_msg] is [str(e)]. *)
Record pyerr : Type := PyErr { err_class : exc_class; err_msg : string }.

Inductive pyresult (A : Type) : Type :=
| Ok (a : A)
| Err (e : pyerr).
Arguments Ok {A} a.
Arguments Err {A} e.

(** [d.get(k)] on a dict: [None] when absent. *)
Fixpoint dict_get (k : string) (d : pydict) : option pyval :=
  match d with
  | [] => None
  | (k', v) :: d' => if String.eqb k k' then Some v else dict_get k d'
  end.

(** [d[k] = v]: replaces in place, or appends a new key at the end. *)
Fixpoint dict_set (k : string) (v : pyval) (d : pydict) : pydict :=
  match d with
  | [] => [(k, v)]
  | (k', v') :: d' =>
      if String.eqb k k' then (k, v) :: d' else (k', v') :: dict_set k v d'
  end.

Definition dict_keys (d : pydict) : list string := map fst d.

(** [x.get(k, default)] for an arbitrary value [x]: only a dict has [get]. *)
Definition py_get (x : pyval) (k : string) (default : pyval) : pyresult pyval :=
  match x with
  | PDict d => Ok (match dict_get k d with Some v => v | None => default end)
  | _ => Err (PyErr AttributeError "object has no attribute 'get'")
  end.

(** Python truth value.  [0.0] and [-0.0] are false, NaN is true. *)
Definition truthy (v : pyval) : bool :=
  match v with
  | PNone => false
  | PBool b => b
  | PInt z => negb (z =? 0)
  | PFloat f => negb (PrimFloat.eqb f 0%float)
  | PStr s => negb (String.eqb s "")
  | PList l => match l with [] => false | _ :: _ => true end
  | PDict d => match d with [] => false | _ :: _ => true end
  | PObjectId _ => true
  | PDatetime _ => true
  end.

(** [x or y] *)
Definition py_or (x y : pyval) : pyval := if truthy x then x else y.

(** [int -> float]: round to nearest even; too large an int overflows. *)
Definition float_of_Z (z : Z) : float :=
  SF2Prim (binary_normalize 53 1024 z 0 false).

(** [s.upper()] on ASCII text. *)
Definition upper_ascii (c : ascii) : ascii :=
  let n := nat_of_ascii c in
  if ((97 <=? n) && (n <=? 122))%nat then ascii_of_nat (n - 32) else c.

Fixpoint upper (s : string) : string :=
  match s with
  | EmptyString => EmptyString
  | String c s' => String (upper_ascii c) (upper s')
  end.

(** [s[:n]] *)
Definition str_prefix (n : nat) (s : string) : string := substring 0 n s.

(** Decimal rendering of an integer, as in an f-string. *)
Definition str_of_Z (z : Z) : string :=
  DecimalString.NilZero.string_of_int (Z.to_int z).

(** [hasattr(v, "isoformat")] and [v.isoformat()] *)
Definition hasattr_isoformat (v : pyval) : bool :=
  match v with PDatetime _ => true | _ => false end.

Definition isoformat (v : pyval) : string :=
  match v with PDatetime iso => iso | _ => "" end.

(** [isinstance(v, ObjectId)] *)
Definition isinstance_ObjectId (v : pyval) : bool :=
  match v with PObjectId _ => true | _ => false end.

(** [x[:10]]: defined on sequences, a [TypeError] elsewhere. *)
Definition py_slice10 (x : pyval) : pyresult pyval :=
  match x with
  | PList l => Ok (PList (firstn 10 l))
  | PStr s => Ok (PStr (str_prefix 10 s))
  | _ => Err (PyErr TypeError "object is not subscriptable")
  end.

(** ** The environment: effects and programs *)

(** What [requests.get] returns: the status line, the URL and the outcome of
    decoding the body with [r.json()]. *)
Record Response : Type := mkResponse {
  status_code : Z;
  reason : string;
  url : string;
  json : pyresult pyval
}.

(** The [db] object of the [database] module, when it is not [None];
    [db_name] is [Some] when [hasattr(db, 'name')]. *)
Record Database : Type := mkDatabase { db_name : option pyval }.

(** The calls that reach outside the handler, indexed by what they answer:
    a value or the exception raised, except for [os.getenv], which cannot
    fail.  [ImportFrom m n] is [from m import n] for a callable [n];
    [ImportDb] is [from database import db], whose value may be [None]. *)
Inductive effect : Type -> Type :=
| RequestsGet (u : string) (params : pydict) (timeout : Z)
    : effect (pyresult Response)
| ImportFrom (module name : string) : effect (pyresult unit)
| ImportDb : effect (pyresult (option Database))
| CreateDocument (collection : string) (data : pydict) : effect (pyresult pyval)
| GetDocuments (collection : string) (limit : Z) : effect (pyresult (list pyval))
| ListCollectionNames (db : Database) : effect (pyresult pyval)
| Getenv (key : string) : effect (option string).

(** What can leave a handler: FastAPI's [HTTPException], or a library
    exception that nothing caught. *)
Inductive exn : Type :=
| HTTPException (status : Z) (detail : string)
| Uncaught (e : pyerr).

(** A handler body: it returns, raises, or performs a call and goes on with
    the answer. *)
Inductive prog (A : Type) : Type :=
| Ret (a : A)
| Raise (e : exn)
| Do (X : Type) (op : effect X) (k : X -> prog A).
Arguments Ret {A} a.
Arguments Raise {A} e.
Arguments Do {A X} op k.

Fixpoint bind {A B : Type} (p : prog A) (f : A -> prog B) : prog B :=
  match p with
  | Ret a => f a
  | Raise e => Raise e
  | Do op k => Do op (fun r => bind (k r) f)
  end.

Notation "x <- p ;; q" := (bind p (fun x => q))
  (at level 61, p at next level, right associativity).
Notation "' pat <- p ;; q" := (bind p (fun x => match x with pat => q end))
  (at level 61, pat pattern, p at next level, right associativity).

(** A step that may raise. *)
Definition lift {A : Type} (r : pyresult A) : prog A :=
  match r with Ok a => Ret a | Err e => Raise (Uncaught e) end.

(** Performing a call that cannot fail. *)
Definition perform {X : Type} (op : effect X) : prog X := Do op Ret.

(** Performing a call: its exception, if any, propagates. *)
Definition call {X : Type} (op : effect (pyresult X)) : prog X := Do op lift.

(** [try: p  except ...: h]; [h e = None] when no clause matches [e]. *)
Fixpoint try_except {A : Type} (p : prog A) (h : exn -> option (prog A)) : prog A :=
  match p with
  | Ret a => Ret a
  | Raise e => match h e with Some q => q | None => Raise e end
  | Do op k => Do op (fun r => try_except (k r) h)
  end.

(** [except requests.RequestException as e: f(str(e))] *)
Definition except_RequestException {A : Type} (f : string -> prog A)
  : exn -> option (prog A) :=
  fun e => match e with
           | Uncaught (PyErr RequestException msg) => Some (f msg)
           | _ => None
           end.

(** [str(e)] of what a [try] body raised. *)
Definition exn_str (e : exn) : string :=
  match e with
  | Uncaught (PyErr _ msg) => msg
  | HTTPException status detail => str_of_Z status ++ ": " ++ detail
  end.

(** [except ImportError: h1  except Exception as e: h2(str(e))] *)
Definition except_ImportError_Exception {A : Type}
    (h1 : prog A) (h2 : string -> prog A) : exn -> option (prog A) :=
  fun e => match e with
           | Uncaught (PyErr ImportError _) => Some h1
           | _ => Some (h2 (exn_str e))
           end.

(** [except Exception as e: h(str(e))] *)
Definition except_Exception_as {A : Type} (h : string -> prog A)
  : exn -> option (prog A) :=
  fun e => Some (h (exn_str e)).

(** [except Exception: h] *)
Definition except_Exception {A : Type} (h : prog A) : exn -> option (prog A) :=
  fun _ => Some h.

(** An environment answers every call from its current state. *)
Definition handler (W : Type) : Type :=
  forall X : Type, effect X -> W -> X * W.

(** One performed call with its answer. *)
Inductive event : Type :=
| Ev (X : Type) (op : effect X) (r : X).
Arguments Ev {X} op r.

Definition trace : Type := list event.

(** Running a program in an environment: outcome, final state, calls made. *)
Fixpoint run {W A : Type} (h : handler W) (p : prog A) (w : W)
  : (A + exn) * W * trace :=
  match p with
  | Ret a => (inl a, w, [])
  | Raise e => (inr e, w, [])
  | Do op k =>
      let (r, w') := h _ op w in
      let '(o, w'', tr) := run h (k r) w' in
      (o, w'', Ev op r :: tr)
  end.

Definition outcome {W A : Type} (h : handler W) (p : prog A) (w : W) : A + exn :=
  fst (fst (run h p w)).

Definition calls {W A : Type} (h : handler W) (p : prog A) (w : W) : trace :=
  snd (run h p w).

Definition failed {A : Type} (r : pyresult A) : bool :=
  match r with Ok _ => false | Err _ => true end.

(** The calls of a trace that raised. *)
Definition is_failed (e : event) : bool :=
  match e with
  | Ev op r =>
      match op in effect X return X -> bool with
      | RequestsGet _ _ _ => failed
      | ImportFrom _ _ => failed
      | ImportDb => failed
      | CreateDocument _ _ => failed
      | GetDocuments _ _ => failed
      | ListCollectionNames _ => failed
      | Getenv _ => fun _ => false
      end r
  end.

(** ** The handlers of src/main.py *)

(** [class ConvertRequest(BaseModel)]: the request body once decoded. *)
Record ConvertRequest : Type := mkConvertRequest {
  from_currency : string;
  to_currency : string;
  amount : float
}.

(** The [Field] constraints of [ConvertRequest]: [min_length=3],
    [max_length=3] on both codes and [ge=0] on the amount. *)
Definition ConvertRequest_valid (p : ConvertRequest) : bool :=
  (3 <=? String.length (from_currency p))%nat
  && (String.length (from_currency p) <=? 3)%nat
  && (3 <=? String.length (to_currency p))%nat
  && (String.length (to_currency p) <=? 3)%nat
  && PrimFloat.leb 0%float (amount p).

Definition EXTERNAL_RATES_BASE : string := "https://api.exchangerate.host".

(** [r.raise_for_status()] of the requests library: an [HTTPError], a
    [RequestException], for a 4xx or 5xx status. *)
Definition raise_for_status (r : Response) : pyresult unit :=
  let http_error_msg :=
    if (400 <=? status_code r) && (status_code r <? 500) then
      str_of_Z (status_code r) ++ " Client Error: " ++ reason r
        ++ " for url: " ++ url r
    else if (500 <=? status_code r) && (status_code r <? 600) then
      str_of_Z (status_code r) ++ " Server Error: " ++ reason r
        ++ " for url: " ++ url r
    else "" in
  if String.eqb http_error_msg "" then Ok tt
  else Err (PyErr RequestException http_error_msg).

(** [GET /] and [GET /api/hello] *)
Definition read_root : prog pyval :=
  Ret (PDict [("message", PStr "Currency Exchange API is running")]).

Definition hello : prog pyval :=
  Ret (PDict [("message", PStr "Hello from the backend API!")]).

(** The truth value of an optional string ([if os.getenv(K)],
    [if symbols]): [None] and the empty string are both false. *)
Definition opt_truthy (v : option string) : bool :=
  match v with
  | Some s => truthy (PStr s)
  | None => false
  end.

(** [GET /test], lines 38-45: the dict the handler starts from. *)
Definition initial_response : pydict :=
  [("backend", PStr "✅ Running");
   ("database", PStr "❌ Not Available");
   ("database_url", PNone);
   ("database_name", PNone);
   ("connection_status", PStr "Not Connected");
   ("collections", PList [])].

(** Lines 47-68: the probe of the storage collaborator.  The handlers of
    the outer [try] see the dict as it was on entry: the only statement of
    the [try] body that can raise into them is the import, which comes
    before every assignment. *)
Definition probe_database (response : pydict) : prog pydict :=
  try_except
    (db <- call ImportDb ;;
     match db with
     | Some db =>
         let response := dict_set "database" (PStr "✅ Available") response in
         let response :=
           dict_set "database_url" (PStr "✅ Configured") response in
         let response :=
           dict_set "database_name"
             (match db_name db with
              | Some n => n
              | None => PStr "✅ Connected"
              end) response in
         let response :=
           dict_set "connection_status" (PStr "Connected") response in
         try_except
           (collections <- call (ListCollectionNames db) ;;
            first10 <- lift (py_slice10 collections) ;;
            let response := dict_set "collections" first10 response in
            Ret (dict_set "database" (PStr "✅ Connected & Working") response))
           (except_Exception_as
              (fun msg =>
                 Ret (dict_set "database"
                        (PStr ("⚠️  Connected but Error: " ++ str_prefix 50 msg))
                        response)))
     | None =>
         Ret (dict_set "database"
                (PStr "⚠️  Available but not initialized") response)
     end)
    (except_ImportError_Exception
       (Ret (dict_set "database"
               (PStr "❌ Database module not found (run enable-database first)")
               response))
       (fun msg =>
          Ret (dict_set "database"
                 (PStr ("❌ Error: " ++ str_prefix 50 msg)) response))).

(** Lines 70-72: whether the two configuration variables are set. *)
Definition report_configuration (response : pydict) : prog pydict :=
  database_url <- perform (Getenv "DATABASE_URL") ;;
  let response :=
    dict_set "database_url"
      (PStr (if opt_truthy database_url then "✅ Set" else "❌ Not Set"))
      response in
  database_name <- perform (Getenv "DATABASE_NAME") ;;
  let response :=
    dict_set "database_name"
      (PStr (if opt_truthy database_name then "✅ Set" else "❌ Not Set"))
      response in
  Ret response.

(** [GET /test] *)
Definition test_database : prog pyval :=
  response <- probe_database initial_response ;;
  response <- report_configuration response ;;
  Ret (PDict response).

(** [len(v)] of a sequence or mapping. *)
Definition py_len (v : pyval) : nat :=
  match v with
  | PList l => List.length l
  | PStr s => String.length s
  | PDict d => List.length d
  | _ => 0%nat
  end.

(** The environment answers [os.getenv] from a fixed set of variables. *)
Definition reads_environ {W : Type} (h : handler W)
    (env : string -> option string) : Prop :=
  forall (key : string) (w : W), fst (h _ (Getenv key) w) = env key.

(** ** Reading the provider's body *)

(** The body carries no failure flag: [success] is absent or truthy. *)
Definition no_failure_flag (data : pydict) : bool :=
  match dict_get "success" data with
  | Some v => truthy v
  | None => true
  end.

(** The nested rate-info field and the direct result field. *)
Definition provider_rate (data : pydict) : option pyval :=
  match dict_get "info" data with
  | Some (PDict info) => dict_get "rate" info
  | _ => None
  end.

Definition provider_result (data : pydict) : option pyval :=
  dict_get "result" data.

(** The rate-info field is usable: absent, or an object. *)
Definition info_is_object (data : pydict) : bool :=
  match dict_get "info" data with
  | Some (PDict _) => true
  | Some _ => false
  | None => true
  end.




Section Builtins.

(** Two built-ins of the Python runtime are parameters of the model:
    [str(v)], and [float(s)] on a string ([None] when it raises
    [ValueError]). *)
Variable py_str : pyval -> string.
Variable float_of_str : string -> option float.

(** [float(v)] *)
Definition py_float (v : pyval) : pyresult float :=
  match v with
  | PFloat f => Ok f
  | PInt z =>
      let f := float_of_Z z in
      if PrimFloat.is_infinity f
      then Err (PyErr OverflowError "int too large to convert to float")
      else Ok f
  | PBool b => Ok (if b then 1%float else 0%float)
  | PStr s =>
      match float_of_str s with
      | Some f => Ok f
      | None => Err (PyErr ValueError "could not convert string to float")
      end
  | _ => Err (PyErr TypeError "float() argument must be a string or a real number")
  end.

(** The query parameters of the two provider calls. *)
Definition rates_params (base : string) (symbols : option string) : pydict :=
  let params : pydict := [("base", PStr base)] in
  if opt_truthy symbols
  then dict_set "symbols"
         (PStr (upper (match symbols with Some s => s | None => "" end)))
         params
  else params.

Definition convert_params (from_currency to_currency : string) (amount : float)
  : pydict :=
  [("from", PStr from_currency);
   ("to", PStr to_currency);
   ("amount", PFloat amount)].

(** [GET /api/rates] *)
Definition get_rates (base : string) (symbols : option string) : prog pyval :=
  let base := upper base in
  let params := rates_params base symbols in
  try_except
    (r <- call (RequestsGet (EXTERNAL_RATES_BASE ++ "/latest") params 10) ;;
     _ <- lift (raise_for_status r) ;;
     data <- lift (json r) ;;
     success <- lift (py_get data "success" (PBool true)) ;;
     if negb (truthy success)
     then Raise (HTTPException 502 "Failed to fetch rates")
     else
       b <- lift (py_get data "base" (PStr base)) ;;
       d <- lift (py_get data "date" PNone) ;;
       rs <- lift (py_get data "rates" (PDict [])) ;;
       Ret (PDict [("base", b); ("date", d); ("rates", rs)]))
    (except_RequestException
       (fun msg => Raise (HTTPException 502 ("Rates provider error: " ++ msg)))).

(** Lines 117-131 of [convert_currency]: the provider call, giving [rate]
    and [result]. *)
Definition fetch_conversion (from_currency to_currency : string) (amount : float)
  : prog (float * float) :=
  try_except
    (r <- call (RequestsGet (EXTERNAL_RATES_BASE ++ "/convert")
                  (convert_params from_currency to_currency amount) 10) ;;
     _ <- lift (raise_for_status r) ;;
     data <- lift (json r) ;;
     success <- lift (py_get data "success" (PBool true)) ;;
     if negb (truthy success)
     then Raise (HTTPException 502 "Failed to convert")
     else
       info <- lift (py_get data "info" (PDict [])) ;;
       rate_field <- lift (py_get info "rate" PNone) ;;
       rate <- lift (py_float (py_or rate_field (PInt 0))) ;;
       result_field <- lift (py_get data "result" PNone) ;;
       result <- lift (py_float (py_or result_field (PFloat (rate * amount)))) ;;
       Ret (rate, result))
    (except_RequestException
       (fun msg =>
          Raise (HTTPException 502 ("Conversion provider error: " ++ msg)))).

(** Lines 134-140: the transaction record. *)
Definition build_tx (from_currency to_currency : string)
    (amount rate result : float) : pydict :=
  [("from_currency", PStr from_currency);
   ("to_currency", PStr to_currency);
   ("amount", PFloat amount);
   ("rate", PFloat rate);
   ("result", PFloat result)].

(** Lines 143-151: best-effort persistence.  [create_document] is taken at
    its interface: it is handed the record, which it leaves as it is, and
    answers with the identifier or raises. *)
Definition persist (tx : pydict) : prog pyval :=
  try_except
    (_ <- call (ImportFrom "database" "create_document") ;;
     _id <- call (CreateDocument "exchange" tx) ;;
     Ret (PDict (dict_set "id" _id tx)))
    (except_Exception (Ret (PDict tx))).

(** [POST /api/convert] *)
Definition convert_currency (payload : ConvertRequest) : prog pyval :=
  let from_currency := upper (from_currency payload) in
  let to_currency := upper (to_currency payload) in
  let amount := amount payload in
  '(rate, result) <- fetch_conversion from_currency to_currency amount ;;
  persist (build_tx from_currency to_currency amount rate result).

(** [serialize(doc)]: one step of the loop over [doc.items()]. *)
Definition serialize_item (out : pydict) (kv : string * pyval) : pydict :=
  let (k, v) := kv in
  if String.eqb k "_id" then dict_set "id" (PStr (py_str v)) out
  else if hasattr_isoformat v then dict_set k (PStr (isoformat v)) out
  else if isinstance_ObjectId v then dict_set k (PStr (py_str v)) out
  else dict_set k v out.

Definition serialize (doc : pyval) : pyresult pyval :=
  match doc with
  | PDict d => Ok (PDict (fold_left serialize_item d []))
  | _ => Err (PyErr AttributeError "object has no attribute 'items'")
  end.

(** In the spec's words: what becomes of the field [k] with value [v]. *)
Definition normalized_key (k : string) : string :=
  if String.eqb k "_id" then "id" else k.

Definition normalized_value (k : string) (v : pyval) : pyval :=
  if String.eqb k "_id" then PStr (py_str v)
  else if hasattr_isoformat v then PStr (isoformat v)
  else if isinstance_ObjectId v then PStr (py_str v)
  else v.

Definition normalized_item (kv : string * pyval) : string * pyval :=
  (normalized_key (fst kv), normalized_value (fst kv) (snd kv)).

(** [[serialize(d) for d in docs]] *)
Fixpoint serialize_all (docs : list pyval) : pyresult (list pyval) :=
  match docs with
  | [] => Ok []
  | d :: docs' =>
      match serialize d with
      | Err e => Err e
      | Ok x =>
          match serialize_all docs' with
          | Err e => Err e
          | Ok xs => Ok (x :: xs)
          end
      end
  end.

(** [GET /api/transactions].  The import of the standard [datetime] module
    cannot fail and is not a call. *)
Definition list_transactions (limit : Z) : prog pyval :=
  try_except
    (_ <- call (ImportFrom "database" "get_documents") ;;
     docs <- call (GetDocuments "exchange" limit) ;;
     _ <- call (ImportFrom "bson" "ObjectId") ;;
     items <- lift (serialize_all docs) ;;
     Ret (PDict [("items", PList items)]))
    (except_Exception (Ret (PDict [("items", PList [])]))).

(** In the spec's words: the rate is the rate-info field as a float, 0 when
    it is absent (or falsy); the result is the provider's result as a float
    when it is present and truthy, and [rate * amount] otherwise. *)
Definition spec_rate (data : pydict) : pyresult float :=
  match provider_rate data with
  | Some v => if truthy v then py_float v else Ok 0%float
  | None => Ok 0%float
  end.

Definition spec_result (data : pydict) (rate amount : float) : pyresult float :=
  match provider_result data with
  | Some v => if truthy v then py_float v else Ok (rate * amount)%float
  | None => Ok (rate * amount)%float
  end.

End Builtins.

(** ** The HTTP layer *)

Record http_response : Type := mkHttp { status : Z; body : pyval }.

(** The response FastAPI chooses for a handler's outcome: 200 with the
    returned value, the status of a raised [HTTPException], 500 for any
    other exception.  The body still has to be encoded as JSON, which can
    fail: see [encode_response] and [serve] below. *)
Definition fastapi_response (o : pyval + exn) : http_response :=
  match o with
  | inl v => mkHttp 200 v
  | inr (HTTPException s d) => mkHttp s (PDict [("detail", PStr d)])
  | inr (Uncaught _) => mkHttp 500 (PStr "Internal Server Error")
  end.

(** A handler as FastAPI runs it: its outcome turned into the chosen
    response. *)
Fixpoint respond (p : prog pyval) : prog http_response :=
  match p with
  | Ret v => Ret (fastapi_response (inl v))
  | Raise e => Ret (fastapi_response (inr e))
  | Do op k => Do op (fun x => respond (k x))
  end.

(** The violated constraints of a [ConvertRequest], as the entries of the
    validation error's [detail]: where the violation is, and the offending
    input, which FastAPI echoes.  (The [type], [msg] and [ctx] entries are
    constant text and numbers and are left out.) *)
Definition validation_errors (p : ConvertRequest) : list pyval :=
  let error (field : string) (input : pyval) :=
    PDict [("loc", PList [PStr "body"; PStr field]); ("input", input)] in
  (if (String.length (from_currency p) =? 3)%nat then []
   else [error "from_currency" (PStr (from_currency p))])
  ++ (if (String.length (to_currency p) =? 3)%nat then []
      else [error "to_currency" (PStr (to_currency p))])
  ++ (if PrimFloat.leb 0%float (amount p) then []
      else [error "amount" (PFloat (amount p))]).

(** The handler of [POST /api/convert] behind its validation.  FastAPI
    validates the body against [ConvertRequest] before entering the
    handler; for a body that violates a constraint its default
    [RequestValidationError] handler chooses status 422 with the errors as
    detail (the source installs no handler of its own). *)
Definition post_api_convert (float_of_str : string -> option float)
    (payload : ConvertRequest) : prog http_response :=
  if ConvertRequest_valid payload
  then respond (convert_currency float_of_str payload)
  else Ret (mkHttp 422 (PDict [("detail", PList (validation_errors payload))])).

(** The other routes: their parameters have defaults and no constraints. *)
Definition get_test : prog http_response := respond test_database.

Definition get_api_rates (base : string) (symbols : option string)
  : prog http_response :=
  respond (get_rates base symbols).

Definition get_api_transactions (py_str : pyval -> string) (limit : Z)
  : prog http_response :=
  respond (list_transactions py_str limit).

(** ** Encoding the response *)

(** Whether a value can be written as JSON.  A float must be finite (the
    encoder runs with [allow_nan=False]); a datetime is written through
    [isoformat]; an [ObjectId] is of no type the encoder knows. *)
Fixpoint jsonable (v : pyval) : bool :=
  match v with
  | PNone => true
  | PBool _ => true
  | PInt _ => true
  | PFloat f => PrimFloat.is_finite f
  | PStr _ => true
  | PList l => forallb jsonable l
  | PDict d =>
      (fix fields (d : list (string * pyval)) : bool :=
         match d with
         | [] => true
         | (_, x) :: d' => jsonable x && fields d'
         end) d
  | PObjectId _ => false
  | PDatetime _ => true
  end.

(** What reaches the client: the chosen response when its body can be
    encoded, and 500 when it cannot.  This holds for the validation error
    as for a handler's value. *)
Definition encode_response (r : http_response) : http_response :=
  if jsonable (body r) then r else mkHttp 500 (PStr "Internal Server Error").

Fixpoint serve (p : prog http_response) : prog http_response :=
  match p with
  | Ret r => Ret (encode_response r)
  | Raise e => Raise e
  | Do op k => Do op (fun x => serve (k x))
  end.

(** The routes [POST /api/convert] and [GET /api/transactions] as a client
    sees them.  What is stated below of the chosen response of a handler
    ([post_api_convert], [get_test], [get_api_rates],
    [get_api_transactions]) is what the client receives whenever that
    response's body can be encoded. *)
Definition convert_route (float_of_str : string -> option float)
    (payload : ConvertRequest) : prog http_response :=
  serve (post_api_convert float_of_str payload).

Definition transactions_route (py_str : pyval -> string) (limit : Z)
  : prog http_response :=
  serve (get_api_transactions py_str limit).

(** ** A deployment: rate provider, store and process environment *)

(** Modelled from the spec: the storage collaborator (the [database] module,
    which src/main.py only imports), after section 6:
    [createDocument(collectionName, record) -> identifier],
    [getDocuments(collectionName, limit) -> ordered sequence of records
    (most recent first)], [listCollectionNames() -> sequence of names].
    Documents are kept newest first, each with the identifier it was
    assigned; a retrieved record carries it in its [_id] field. *)
Record Store : Type := mkStore {
  next_id : Z;
  documents : list (string * (pyval * pydict))
}.

(** Modelled from the spec: [createDocument] of the storage collaborator. *)
Definition createDocument (collection : string) (record : pydict) (s : Store)
  : pyval * Store :=
  let ident := PObjectId (str_of_Z (next_id s)) in
  (ident, mkStore (next_id s + 1) ((collection, (ident, record)) :: documents s)).

(** Modelled from the spec: [getDocuments] of the storage collaborator. *)
Definition getDocuments (collection : string) (limit : Z) (s : Store)
  : list pyval :=
  firstn (Z.to_nat limit)
    (map (fun d => PDict (("_id", fst (snd d)) :: snd (snd d)))
       (filter (fun d => String.eqb (fst d) collection) (documents s))).

(** Modelled from the spec: [listCollectionNames] of the storage
    collaborator. *)
Definition listCollectionNames (s : Store) : list string :=
  nodup string_dec (map fst (documents s)).

(** The state of a deployment.  [database] is [None] when the module is not
    installed, [Some None] when it is but [db] is [None]. *)
Record World : Type := mkWorld {
  provider : string -> pydict -> pyresult Response;
  database : option (option Store)
}.

Fixpoint getenv (key : string) (env : list (string * string)) : option string :=
  match env with
  | [] => None
  | (k, v) :: env' => if String.eqb key k then Some v else getenv key env'
  end.

Definition set_store (w : World) (s : Store) : World :=
  mkWorld (provider w) (Some (Some s)).

Definition no_module : pyerr := PyErr ImportError "No module named 'database'".
Definition no_database : pyerr :=
  PyErr (OtherError "Exception") "Database not available".

(** The deployment as an environment of the handlers; [environ] is the
    process environment, fixed when the process starts. *)
Definition deployment (environ : list (string * string)) : handler World :=
  fun X op =>
    match op in effect X return World -> X * World with
    | RequestsGet u params _ => fun w => (provider w u params, w)
    | ImportFrom m _ => fun w =>
        if String.eqb m "database"
        then match database w with
             | Some _ => (Ok tt, w)
             | None => (Err no_module, w)
             end
        else (Ok tt, w)
    | ImportDb => fun w =>
        match database w with
        | Some (Some _) => (Ok (Some (mkDatabase (Some (PStr "exchange_db")))), w)
        | Some None => (Ok None, w)
        | None => (Err no_module, w)
        end
    | CreateDocument collection data => fun w =>
        match database w with
        | Some (Some s) =>
            let (ident, s') := createDocument collection data s in
            (Ok ident, set_store w s')
        | _ => (Err no_database, w)
        end
    | GetDocuments collection limit => fun w =>
        match database w with
        | Some (Some s) => (Ok (getDocuments collection limit s), w)
        | _ => (Err no_database, w)
        end
    | ListCollectionNames _ => fun w =>
        match database w with
        | Some (Some s) => (Ok (PList (map PStr (listCollectionNames s))), w)
        | _ => (Err no_database, w)
        end
    | Getenv key => fun w => (getenv key environ, w)
    end.

(** Concrete built-ins for the examples.  [float_of_digits] is [float] on
    strings of decimal digits and rejects every other string; [str_basic] is
    [str] on [None], booleans, integers, strings and the two storage types.
    The theorems below hold for every choice of the two built-ins. *)
Fixpoint digits_value (acc : Z) (s : string) : option Z :=
  match s with
  | EmptyString => Some acc
  | String c s' =>
      let n := Z.of_nat (nat_of_ascii c) in
      if (48 <=? n) && (n <=? 57) then digits_value (10 * acc + (n - 48)) s'
      else None
  end.

Definition float_of_digits (s : string) : option float :=
  match s with
  | EmptyString => None
  | _ => option_map float_of_Z (digits_value 0 s)
  end.

Fixpoint space_for_T (s : string) : string :=
  match s with
  | EmptyString => EmptyString
  | String c s' =>
      String (if Ascii.eqb c "T"%char then " "%char else c) (space_for_T s')
  end.

Definition str_basic (v : pyval) : string :=
  match v with
  | PNone => "None"
  | PBool true => "True"
  | PBool false => "False"
  | PInt z => str_of_Z z
  | PStr s => s
  | PObjectId hex => hex
  | PDatetime iso => space_for_T iso
  | _ => ""
  end.

(** ** Concrete inputs of the examples *)

(** A provider that answers every request with status 200 and [body]. *)
Definition provider_answering (body : pyval)
  : string -> pydict -> pyresult Response :=
  fun u _ => Ok (mkResponse 200 "OK" u (Ok body)).

Definition empty_store : Store := mkStore 1 [].

(** A deployment with a working store, and one without the [database]
    module. *)
Definition healthy (body : pyval) : World :=
  mkWorld (provider_answering body) (Some (Some empty_store)).

Definition without_database (body : pyval) : World :=
  mkWorld (provider_answering body) None.

(** Process environments: both variables set; the URL set to the empty
    string; both set to other values; neither set. *)
Definition configured : list (string * string) :=
  [("DATABASE_URL", "mongodb://localhost:27017"); ("DATABASE_NAME", "exchange_db")].

Definition empty_url : list (string * string) :=
  [("DATABASE_URL", ""); ("DATABASE_NAME", "exchange_db")].

Definition configured_elsewhere : list (string * string) :=
  [("DATABASE_URL", "mongodb://db.internal:27017"); ("DATABASE_NAME", "fx")].

Definition unconfigured : list (string * string) := [].

Definition usd_to_eur : ConvertRequest := mkConvertRequest "usd" "eur" 100%float.

Definition negative_amount : ConvertRequest :=
  mkConvertRequest "usd" "eur" (-1)%float.

(** Provider bodies: a full quote, a quote with a negative rate, a quote
    whose result is zero, and a body that is not an object. *)
Definition quote : pyval :=
  PDict [("result", PFloat 75%float); ("info", PDict [("rate", PFloat 0.75%float)])].

Definition negative_quote : pyval :=
  PDict [("info", PDict [("rate", PFloat (-1.5)%float)])].

Definition zero_result_quote : pyval :=
  PDict [("result", PInt 0); ("info", PDict [("rate", PFloat 0.75%float)])].

Definition not_an_object : pyval := PList [].

(** Stored documents: one as the conversion endpoint writes them, with a
    timestamp, and one that refers to another document. *)
Definition stored_transaction : pydict :=
  [("_id", PObjectId "65a1b2c3d4e5f60718293a4b");
   ("from_currency", PStr "USD");
   ("amount", PFloat 100%float);
   ("created_at", PDatetime "2024-01-02T03:04:05")].

Definition stored_with_reference : pydict :=
  [("_id", PObjectId "65a1b2c3d4e5f60718293a4b");
   ("owner", PObjectId "507f1f77bcf86cd799439011")].

Definition stored_with_nested_reference : pydict :=
  [("_id", PObjectId "65a1b2c3d4e5f60718293a4b");
   ("links", PList [PObjectId "507f1f77bcf86cd799439011"])].

Definition rates_body : pyval :=
  PDict [("date", PStr "2024-01-02");
         ("rates", PDict [("EUR", PFloat 0.75%float); ("GBP", PFloat 0.5%float)])].

(** A provider that cannot be reached, one that answers with a given
    status line and body, and the deployments in front of them. *)
Definition provider_unreachable : string -> pydict -> pyresult Response :=
  fun _ _ => Err (PyErr RequestException "connection refused").

Definition provider_status (code : Z) (why : string) (body : pyval)
  : string -> pydict -> pyresult Response :=
  fun u _ => Ok (mkResponse code why u (Ok body)).

Definition unreachable : World :=
  mkWorld provider_unreachable (Some (Some empty_store)).

Definition answering (code : Z) (why : string) (body : pyval) : World :=
  mkWorld (provider_status code why body) (Some (Some empty_store)).

(** Provider bodies: one with the failure flag raised, one whose rate-info
    is null. *)
Definition refused_quote : pyval :=
  PDict [("success", PBool false); ("result", PFloat 75%float)].

Definition null_info_quote : pyval :=
  PDict [("result", PFloat 75%float); ("info", PNone)].



(** A request whose amount is minus infinity (the JSON number [-1e400]). *)
Definition minus_infinity_amount : ConvertRequest :=
  mkConvertRequest "usd" "eur" PrimFloat.neg_infinity.

(** A stored document that carries a field [id] of its own after [_id]. *)
Definition stored_with_own_id : pydict :=
  [("_id", PObjectId "65a1b2c3d4e5f60718293a4b");
   ("id", PInt 7);
   ("amount", PFloat 100%float)].



(** An environment whose storage query answers [docs] as they are, whatever
    they are; it has no rate provider and no configuration. *)
Definition answering_documents (docs : list pyval) : handler unit :=
  fun X op =>
    match op in effect X return unit -> X * unit with
    | RequestsGet _ _ _ =>
        fun w => (Err (PyErr RequestException "connection refused"), w)
    | ImportFrom _ _ => fun w => (Ok tt, w)
    | ImportDb => fun w => (Ok None, w)
    | CreateDocument _ _ => fun w => (Err no_database, w)
    | GetDocuments _ _ => fun w => (Ok docs, w)
    | ListCollectionNames _ => fun w => (Err no_database, w)
    | Getenv _ => fun w => (None, w)
    end.

(** [d.get(k)] read from the end: the last binding of [k]. *)
Definition dict_get_last (k : string) (d : pydict) : option pyval :=
  dict_get k (rev d).

(** ** Running programs: general facts *)

Section RunFacts.

Context {W : Type} (h : handler W).

Lemma run_bind {A B : Type} (p : prog A) (f : A -> prog B) (w : W) :
  run h (bind p f) w =
  match run h p w with
  | (inl a, w1, tr1) =>
      let '(o, w2, tr2) := run h (f a) w1 in (o, w2, (tr1 ++ tr2)%list)
  | (inr e, w1, tr1) => (inr e, w1, tr1)
  end.
Proof.
  revert w; induction p as [a | e | X op k IH]; intro w; simpl.
  - destruct (run h (f a) w) as [[o w2] tr2]; reflexivity.
  - reflexivity.
  - destruct (h X op w) as [x w1].
    rewrite IH.
    destruct (run h (k x) w1) as [[[a | e] w2] tr1]; [|reflexivity].
    destruct (run h (f a) w2) as [[o w3] tr2]; reflexivity.
Qed.

Lemma run_try_except {A : Type} (p : prog A) (hd : exn -> option (prog A)) (w : W) :
  run h (try_except p hd) w =
  match run h p w with
  | (inl a, w1, tr1) => (inl a, w1, tr1)
  | (inr e, w1, tr1) =>
      match hd e with
      | Some q => let '(o, w2, tr2) := run h q w1 in (o, w2, (tr1 ++ tr2)%list)
      | None => (inr e, w1, tr1)
      end
  end.
Proof.
  revert w; induction p as [a | e | X op k IH]; intro w; simpl.
  - reflexivity.
  - destruct (hd e) as [q|]; [|reflexivity].
    destruct (run h q w) as [[o w2] tr2]; reflexivity.
  - destruct (h X op w) as [x w1].
    rewrite IH.
    destruct (run h (k x) w1) as [[[a | e] w2] tr1]; [reflexivity|].
    destruct (hd e) as [q|]; [|reflexivity].
    destruct (run h q w2) as [[o w3] tr2]; reflexivity.
Qed.

Lemma run_respond (p : prog pyval) (w : W) :
  run h (respond p) w =
  let '(o, w1, tr) := run h p w in (inl (fastapi_response o), w1, tr).
Proof.
  revert w; induction p as [a | e | X op k IH]; intro w; simpl; try reflexivity.
  destruct (h X op w) as [x w1].
  rewrite IH.
  destruct (run h (k x) w1) as [[o w2] tr]; reflexivity.
Qed.


Lemma run_call {X : Type} (op : effect (pyresult X)) (w : W) :
  run h (call op) w =
  (match fst (h _ op w) with Ok x => inl x | Err e => inr (Uncaught e) end,
   snd (h _ op w), [Ev op (fst (h _ op w))]).
Proof.
  unfold call; simpl.
  destruct (h _ op w) as [[x | e] w1]; reflexivity.
Qed.

Lemma run_lift {A : Type} (r : pyresult A) (w : W) :
  run h (lift r) w =
  (match r with Ok a => inl a | Err e => inr (Uncaught e) end, w, []).
Proof. destruct r; reflexivity. Qed.

End RunFacts.

(** ** The conversion endpoint *)

Section ConvertFacts.

Variable float_of_str : string -> option float.
Context {W : Type} (h : handler W).



Lemma truthy_success (d : pydict) :
  truthy (match dict_get "success" d with Some v => v | None => PBool true end)
  = no_failure_flag d.
Proof. unfold no_failure_flag; destruct (dict_get "success" d); reflexivity. Qed.

Lemma py_float_or_zero (v : option pyval) :
  py_float float_of_str
    (py_or (match v with Some x => x | None => PNone end) (PInt 0))
  = match v with
    | Some x => if truthy x then py_float float_of_str x else Ok 0%float
    | None => Ok 0%float
    end.
Proof.
  unfold py_or; destruct v as [x|]; [destruct (truthy x)|]; reflexivity.
Qed.

Lemma py_float_or_default (v : option pyval) (f : float) :
  py_float float_of_str
    (py_or (match v with Some x => x | None => PNone end) (PFloat f))
  = match v with
    | Some x => if truthy x then py_float float_of_str x else Ok f
    | None => Ok f
    end.
Proof.
  unfold py_or; destruct v as [x|]; [destruct (truthy x)|]; reflexivity.
Qed.

Local Ltac finish := eexists; (split; [reflexivity|]); eauto 12.
Local Ltac raised e := destruct e as [[] ?]; cbn; finish.

(** The provider phase makes exactly one call and ends in one of three
    ways: a 502, an exception nothing catches, or a rate and a result read
    off a well-formed body. *)
Lemma fetch_conversion_run (w : W) (f t : string) (a : float) :
  let op :=
    RequestsGet (EXTERNAL_RATES_BASE ++ "/convert") (convert_params f t a) 10 in
  exists o,
    run h (fetch_conversion float_of_str f t a) w
    = (o, snd (h _ op w), [Ev op (fst (h _ op w))]) /\
    ((exists d, o = inr (HTTPException 502 d)) \/
     (exists e, o = inr (Uncaught e)) \/
     (exists r data rate result,
        fst (h _ op w) = Ok r /\ raise_for_status r = Ok tt /\
        json r = Ok (PDict data) /\
        no_failure_flag data = true /\ info_is_object data = true /\
        spec_rate float_of_str data = Ok rate /\
        spec_result float_of_str data rate a = Ok result /\
        o = inl (rate, result))).
Proof.
  intro op. unfold fetch_conversion. fold op.
  rewrite run_try_except, run_bind, run_call.
  destruct (h _ op w) as [[r | e] w1]; cbn [fst snd]; [|raised e].
  destruct (raise_for_status r) as [[] | e] eqn:Hs; cbn [lift bind]; [|raised e].
  destruct (json r) as [data | e] eqn:Hj; cbn [lift bind]; [|raised e].
  destruct data as [| | | | | |d| |]; try (cbn; finish).
  cbn [py_get lift bind]. rewrite truthy_success.
  destruct (no_failure_flag d) eqn:Hf; cbn [negb]; [|cbn; finish].
  unfold spec_rate, spec_result, provider_rate, provider_result, info_is_object.
  destruct (dict_get "info" d) as [info|] eqn:Hi.
  - destruct info as [| | | | | |i| |]; try (cbn; finish).
    cbn [py_get lift bind]. rewrite py_float_or_zero.
    destruct (match dict_get "rate" i with Some _ => _ | None => _ end)
      as [rate | e] eqn:Hr; cbn [lift bind]; [|raised e].
    rewrite py_float_or_default.
    destruct (match dict_get "result" d with Some _ => _ | None => _ end)
      as [result | e] eqn:Hres; cbn [lift bind]; [|raised e].
    cbn. eexists; split; [reflexivity|].
    right; right. exists r, d, rate, result. rewrite Hi. auto 10.
  - cbn [py_get lift bind dict_get].
    replace (py_float float_of_str (py_or PNone (PInt 0)))
      with (@Ok float 0%float) by reflexivity.
    cbn [lift bind].
    rewrite py_float_or_default.
    destruct (match dict_get "result" d with Some _ => _ | None => _ end)
      as [result | e] eqn:Hres; cbn [lift bind]; [|raised e].
    cbn. eexists; split; [reflexivity|].
    right; right. exists r, d, 0%float, result. rewrite Hi. auto 10.
Qed.

(** The persistence phase never raises: it answers with the record, with
    the identifier attached when both the import and the write went
    through. *)
Lemma persist_run (w : W) (tx : pydict) :
  let imp := h _ (ImportFrom "database" "create_document") w in
  let cre := h _ (CreateDocument "exchange" tx) (snd imp) in
  exists w' tr,
    run h (persist tx) w
    = (inl (PDict (match fst imp, fst cre with
                   | Ok _, Ok ident => dict_set "id" ident tx
                   | _, _ => tx
                   end)), w', tr).
Proof.
  intros imp cre. subst cre imp. unfold persist, call. cbn.
  destruct (h _ (ImportFrom "database" "create_document") w) as [[[] | e] w1];
    cbn; [|eauto].
  destruct (h _ (CreateDocument "exchange" tx) w1) as [[ident | e] w2];
    cbn; eauto.
Qed.

Lemma negative_not_ge_zero (a : float) :
  PrimFloat.ltb a 0%float = true -> PrimFloat.leb 0%float a = false.
Proof.
  rewrite ltb_spec, leb_spec.
  change (Prim2SF 0%float) with (S754_zero false).
  unfold SFltb, SFleb.
  destruct (Prim2SF a) as [s | s | | s m e]; cbn;
    try destruct s; try discriminate; reflexivity.
Qed.





(** C1 (amended).  For a valid request, the route answers in one of three
    ways and no other: 502 (transport failure, HTTP error status, failure
    flag); 500 (an exception that is not a transport error escapes, as on a
    malformed provider body); or 200 with a record whose rate is the
    provider's rate as a float (0 when absent or falsy, and of either sign)
    and whose result is [rate * amount] whenever the provider's body has no
    result field. *)
Theorem convert_currency_outcomes (w : W) (payload : ConvertRequest) :
  ConvertRequest_valid payload = true ->
  exists resp,
    outcome h (post_api_convert float_of_str payload) w = inl resp /\
    (status resp = 502 \/
     status resp = 500 \/
     (status resp = 200 /\
      exists r data tx rate result,
        fst (h _ (RequestsGet (EXTERNAL_RATES_BASE ++ "/convert")
                    (convert_params (upper (from_currency payload))
                       (upper (to_currency payload)) (amount payload)) 10) w)
        = Ok r /\
        json r = Ok (PDict data) /\
        body resp = PDict tx /\
        dict_get "rate" tx = Some (PFloat rate) /\
        dict_get "result" tx = Some (PFloat result) /\
        spec_rate float_of_str data = Ok rate /\
        (provider_result data = None -> result = (rate * amount payload)%float))).
Proof.
  intro Hvalid. unfold outcome, post_api_convert. rewrite Hvalid.
  rewrite run_respond. unfold convert_currency. rewrite run_bind.
  destruct (fetch_conversion_run w (upper (from_currency payload))
              (upper (to_currency payload)) (amount payload))
    as (o & -> & [(d & ->) | [(e & ->) | Hok]]).
  - cbn. eexists; split; [reflexivity|]. left; reflexivity.
  - cbn. eexists; split; [reflexivity|]. right; left; reflexivity.
  - destruct Hok
      as (r & data & rate & result & Hr & _ & Hj & _ & _ & Hrate & Hres & ->).
    match goal with |- context [run h (persist ?tx) ?w1] =>
      destruct (persist_run w1 tx) as (w' & tr & ->) end.
    cbn [fst snd]. eexists; split; [reflexivity|]. right; right.
    split; [reflexivity|].
    exists r, data. eexists. exists rate, result.
    split; [exact Hr|]. split; [exact Hj|]. split; [reflexivity|].
    split; [|split; [|split; [exact Hrate|]]].
    + destruct (fst (h _ (ImportFrom _ _) _)); [|reflexivity].
      destruct (fst (h _ (CreateDocument _ _) _)); reflexivity.
    + destruct (fst (h _ (ImportFrom _ _) _)); [|reflexivity].
      destruct (fst (h _ (CreateDocument _ _) _)); reflexivity.
    + intro Hnone. unfold spec_result in Hres. rewrite Hnone in Hres.
      congruence.
Qed.

(** C2 (amended).  A body with a currency code that is not exactly three
    characters long, or with a negative amount, is rejected before any call
    is made: the trace is empty and the environment is left as it was.  The
    answer is 422 (FastAPI's validation error, not 400), except when the
    rejected amount is not finite (minus infinity, NaN): the error echoes
    it, it cannot be encoded as JSON, and the answer is 500. *)
Theorem invalid_request_rejected_before_any_call (w : W) (payload : ConvertRequest) :
  String.length (from_currency payload) <> 3%nat \/
  String.length (to_currency payload) <> 3%nat \/
  PrimFloat.ltb (amount payload) 0%float = true ->
  exists resp,
    run h (convert_route float_of_str payload) w = (inl resp, w, []) /\
    status resp
    = if PrimFloat.leb 0%float (amount payload)
         || PrimFloat.is_finite (amount payload)
      then 422 else 500.
Proof.
  intro Hbad.
  assert (Hv : ConvertRequest_valid payload = false).
  { unfold ConvertRequest_valid.
    destruct Hbad as [Hf | [Ht | Ha]].
    - destruct (3 <=? String.length (from_currency payload))%nat eqn:H1;
        [|reflexivity].
      destruct (String.length (from_currency payload) <=? 3)%nat eqn:H2;
        [|reflexivity].
      apply Nat.leb_le in H1, H2. exfalso; apply Hf; lia.
    - destruct (3 <=? String.length (to_currency payload))%nat eqn:H1;
        [|rewrite !andb_false_r; reflexivity].
      destruct (String.length (to_currency payload) <=? 3)%nat eqn:H2;
        [|rewrite !andb_false_r; reflexivity].
      apply Nat.leb_le in H1, H2. exfalso; apply Ht; lia.
    - rewrite (negative_not_ge_zero _ Ha). apply andb_false_r. }
  unfold convert_route, post_api_convert. rewrite Hv.
  cbn [serve run]. eexists. split; [reflexivity|].
  unfold encode_response, validation_errors. cbn [body].
  destruct (String.length (from_currency payload) =? 3)%nat;
    destruct (String.length (to_currency payload) =? 3)%nat;
    destruct (PrimFloat.leb 0%float (amount payload));
    cbn; try reflexivity;
    destruct (PrimFloat.is_finite (amount payload)); reflexivity.
Qed.






End ConvertFacts.

(** *** The conversion endpoint on concrete inputs *)

(** The spec's scenario: a provider quoting rate 0.75 and result 75 for 100
    USD, with a healthy store; the response chosen, before it is encoded. *)
Example convert_scenario :
  outcome (deployment configured) (post_api_convert float_of_digits usd_to_eur)
    (healthy quote)
  = inl (mkHttp 200
           (PDict [("from_currency", PStr "USD"); ("to_currency", PStr "EUR");
                   ("amount", PFloat 100%float); ("rate", PFloat 0.75%float);
                   ("result", PFloat 75%float); ("id", PObjectId "1")])).
Proof. reflexivity. Qed.

(** C1, witness: the valid request [usd_to_eur] against a healthy
    deployment. *)
Lemma convert_currency_outcomes_witness :
  ConvertRequest_valid usd_to_eur = true /\
  exists resp,
    outcome (deployment configured)
      (post_api_convert float_of_digits usd_to_eur) (healthy quote)
    = inl resp /\
    (status resp = 502 \/ status resp = 500 \/ status resp = 200).
Proof.
  split; [reflexivity|].
  destruct (convert_currency_outcomes float_of_digits (deployment configured)
              (healthy quote) usd_to_eur eq_refl) as (resp & Ho & Hs).
  exists resp. split; [exact Ho|].
  destruct Hs as [Hs | [Hs | [Hs _]]]; auto.
Defined.

(** C1 as stated fails twice.  A provider quoting the rate -1.5 is answered
    with 200 and a negative rate; a provider whose body is a JSON list is
    answered with 500, which is neither 200 nor 502. *)
Lemma convert_currency_negative_rate_and_500 :
  ConvertRequest_valid usd_to_eur = true /\
  outcome (deployment configured) (post_api_convert float_of_digits usd_to_eur)
    (healthy negative_quote)
  = inl (mkHttp 200
           (PDict [("from_currency", PStr "USD"); ("to_currency", PStr "EUR");
                   ("amount", PFloat 100%float); ("rate", PFloat (-1.5)%float);
                   ("result", PFloat (-150)%float); ("id", PObjectId "1")])) /\
  PrimFloat.leb 0%float (-1.5)%float = false /\
  outcome (deployment configured) (post_api_convert float_of_digits usd_to_eur)
    (healthy not_an_object)
  = inl (mkHttp 500 (PStr "Internal Server Error")).
Proof. repeat split; reflexivity. Qed.

(** C2, witness: a negative amount. *)
Lemma invalid_request_rejected_witness :
  PrimFloat.ltb (amount negative_amount) 0%float = true /\
  exists resp,
    run (deployment configured)
      (convert_route float_of_digits negative_amount) (healthy quote)
    = (inl resp, healthy quote, []) /\
    status resp = 422.
Proof.
  split; [reflexivity|].
  apply (invalid_request_rejected_before_any_call float_of_digits
           (deployment configured)
           (healthy quote) negative_amount).
  right; right; reflexivity.
Defined.

(** C2 as stated fails: the rejection of the amount -1 carries status 422,
    not 400, and the rejection of the amount minus infinity carries 500. *)
Lemma invalid_request_is_422_not_400 :
  run (deployment configured)
    (convert_route float_of_digits negative_amount) (healthy quote)
  = (inl (mkHttp 422
            (PDict [("detail",
                     PList [PDict [("loc", PList [PStr "body"; PStr "amount"]);
                                   ("input", PFloat (-1)%float)]])])),
     healthy quote, []) /\
  422 <> 400 /\
  PrimFloat.ltb (amount minus_infinity_amount) 0%float = true /\
  run (deployment configured)
    (convert_route float_of_digits minus_infinity_amount) (healthy quote)
  = (inl (mkHttp 500 (PStr "Internal Server Error")), healthy quote, []).
Proof.
  split; [reflexivity|]. split; [discriminate|]. split; reflexivity.
Qed.


(** The fallback of C3: the provider sends [result: 0]; the record's
    result is [0.75 * 100]. *)
Example convert_zero_result_falls_back :
  exists tx,
    outcome (deployment configured) (convert_currency float_of_digits usd_to_eur)
      (healthy zero_result_quote) = inl (PDict tx) /\
    dict_get "rate" tx = Some (PFloat 0.75%float) /\
    dict_get "result" tx = Some (PFloat 75%float).
Proof. eexists. repeat split; reflexivity. Qed.




(** ** The rates endpoint *)

Section RatesFacts.

Context {W : Type} (h : handler W).

Lemma raise_for_status_2xx (r : Response) :
  200 <= status_code r < 300 -> raise_for_status r = Ok tt.
Proof.
  intro Hs. unfold raise_for_status.
  destruct (400 <=? status_code r) eqn:H4; [apply Z.leb_le in H4; lia|].
  destruct (500 <=? status_code r) eqn:H5; [apply Z.leb_le in H5; lia|].
  reflexivity.
Qed.

(** C8.  When the provider answers the rates request with a 2xx status and
    a JSON object without a failure flag, the route answers 200 with
    [base], [date] and [rates]: the provider's base, or the uppercased
    request base when it has none; the provider's date as it is ([None]
    when it has none); the provider's rates as they are, or the empty
    mapping when it has none. *)
Theorem get_rates_passes_snapshot_through (w : W) (base : string)
    (symbols : option string) (r : Response) (data : pydict) :
  fst (h _ (RequestsGet (EXTERNAL_RATES_BASE ++ "/latest")
              (rates_params (upper base) symbols) 10) w) = Ok r ->
  200 <= status_code r < 300 ->
  json r = Ok (PDict data) ->
  no_failure_flag data = true ->
  outcome h (get_api_rates base symbols) w
  = inl (mkHttp 200
           (PDict [("base", match dict_get "base" data with
                            | Some b => b
                            | None => PStr (upper base)
                            end);
                   ("date", match dict_get "date" data with
                            | Some d => d
                            | None => PNone
                            end);
                   ("rates", match dict_get "rates" data with
                             | Some rs => rs
                             | None => PDict []
                             end)])).
Proof.
  intros Hr Hs Hj Hf.
  unfold outcome, get_api_rates. rewrite run_respond.
  unfold get_rates.
  rewrite run_try_except, run_bind, run_call, Hr.
  cbn [fst snd lift bind]. rewrite (raise_for_status_2xx r Hs).
  cbn [lift bind]. rewrite Hj. cbn [py_get lift bind].
  rewrite truthy_success, Hf. reflexivity.
Qed.

End RatesFacts.

(** C8, witness: the spec's scenario, [base=usd&symbols=eur,gbp], against a
    provider that sends rates and a date but no base. *)
Lemma get_rates_passes_snapshot_through_witness :
  (200 <= 200 < 300) /\
  outcome (deployment configured) (get_api_rates "usd" (Some "eur,gbp"))
    (healthy rates_body)
  = inl (mkHttp 200
           (PDict [("base", PStr "USD"); ("date", PStr "2024-01-02");
                   ("rates", PDict [("EUR", PFloat 0.75%float);
                                    ("GBP", PFloat 0.5%float)])])).
Proof.
  split; [lia|].
  exact (get_rates_passes_snapshot_through (deployment configured)
           (healthy rates_body)
           "usd" (Some "eur,gbp")
           (mkResponse 200 "OK" (EXTERNAL_RATES_BASE ++ "/latest") (Ok rates_body))
           [("date", PStr "2024-01-02");
            ("rates", PDict [("EUR", PFloat 0.75%float); ("GBP", PFloat 0.5%float)])]
           eq_refl ltac:(cbn; lia) eq_refl eq_refl).
Defined.

(** The outbound call of that scenario carries the uppercased parameters. *)
Example get_rates_scenario_call :
  calls (deployment configured) (get_api_rates "usd" (Some "eur,gbp"))
    (healthy rates_body)
  = [Ev (RequestsGet "https://api.exchangerate.host/latest"
           [("base", PStr "USD"); ("symbols", PStr "EUR,GBP")] 10)
        (Ok (mkResponse 200 "OK" "https://api.exchangerate.host/latest"
               (Ok rates_body)))].
Proof. reflexivity. Qed.

(** ** The transactions endpoint *)

Section TransactionsFacts.

Variable py_str : pyval -> string.
Context {W : Type} (h : handler W).

(** C6.  Whatever the limit and whatever the environment does, the route
    answers 200 with an [items] list and never with an error; and when any
    call it made raised (the import of the storage module, the query, the
    import of [bson]), the list is empty. *)
Theorem list_transactions_never_fails (w : W) (limit : Z) :
  exists items,
    outcome h (get_api_transactions py_str limit) w
    = inl (mkHttp 200 (PDict [("items", PList items)])) /\
    (existsb is_failed (calls h (get_api_transactions py_str limit) w) = true ->
     items = []).
Proof.
  unfold outcome, calls, get_api_transactions. rewrite run_respond.
  unfold list_transactions, call. cbn.
  destruct (h _ (ImportFrom "database" "get_documents") w) as [[[] | e1] w1];
    cbn; [|eauto].
  destruct (h _ (GetDocuments "exchange" limit) w1) as [[docs | e2] w2];
    cbn; [|eauto].
  destruct (h _ (ImportFrom "bson" "ObjectId") w2) as [[[] | e3] w3];
    cbn; [|eauto].
  destruct (serialize_all py_str docs) as [items | e4]; cbn.
  - exists items. split; [reflexivity | discriminate].
  - eauto.
Qed.

End TransactionsFacts.

(** ** Normalizing stored records *)

Lemma dict_set_fresh (k : string) (v : pyval) (d : pydict) :
  ~ In k (dict_keys d) -> dict_set k v d = (d ++ [(k, v)])%list.
Proof.
  induction d as [| [k' v'] d IH]; intro Hk; cbn; [reflexivity|].
  destruct (String.eqb_spec k k') as [-> | Hne].
  - exfalso; apply Hk; left; reflexivity.
  - rewrite IH; [reflexivity|]. intro Hin; apply Hk; right; exact Hin.
Qed.

Lemma dict_get_In (k : string) (v : pyval) (d : pydict) :
  NoDup (dict_keys d) -> In (k, v) d -> dict_get k d = Some v.
Proof.
  induction d as [| [k' v'] d IH]; intros Hnd Hin; [destruct Hin|].
  cbn in *. inversion Hnd as [| ? ? Hk' Hnd']; subst.
  destruct Hin as [Heq | Hin].
  - injection Heq as -> ->. rewrite String.eqb_refl. reflexivity.
  - destruct (String.eqb_spec k k') as [-> | Hne].
    + exfalso; apply Hk'. change k' with (fst (k', v)).
      apply in_map; exact Hin.
    + apply IH; assumption.
Qed.

Lemma dict_get_not_In (k : string) (d : pydict) :
  ~ In k (dict_keys d) -> dict_get k d = None.
Proof.
  induction d as [| [k' v'] d IH]; intro Hk; cbn; [reflexivity|].
  destruct (String.eqb_spec k k') as [-> | Hne].
  - exfalso; apply Hk; left; reflexivity.
  - apply IH. intro Hin; apply Hk; right; exact Hin.
Qed.

Section SerializeFacts.

Variable py_str : pyval -> string.

Lemma serialize_item_normalized (out : pydict) (kv : string * pyval) :
  serialize_item py_str out kv
  = dict_set (fst (normalized_item py_str kv)) (snd (normalized_item py_str kv)) out.
Proof.
  destruct kv as [k v]. unfold serialize_item, normalized_item,
    normalized_key, normalized_value. cbn [fst snd].
  destruct (String.eqb k "_id"); [reflexivity|].
  destruct (hasattr_isoformat v); [reflexivity|].
  destruct (isinstance_ObjectId v); reflexivity.
Qed.

Lemma normalized_key_inj (k k' : string) (keys : list string) :
  ~ (In "_id" keys /\ In "id" keys) ->
  In k keys -> In k' keys ->
  normalized_key k = normalized_key k' -> k = k'.
Proof.
  unfold normalized_key. intros Hno Hk Hk'.
  destruct (String.eqb_spec k "_id") as [-> | Hn];
    destruct (String.eqb_spec k' "_id") as [-> | Hn']; intro Heq.
  - reflexivity.
  - subst k'. exfalso; apply Hno; split; assumption.
  - subst k. exfalso; apply Hno; split; assumption.
  - exact Heq.
Qed.

Lemma normalized_keys_NoDup (keys : list string) :
  NoDup keys -> ~ (In "_id" keys /\ In "id" keys) ->
  NoDup (map normalized_key keys).
Proof.
  intros Hnd Hno.
  assert (Hinj : forall k k', In k keys -> In k' keys ->
                   normalized_key k = normalized_key k' -> k = k')
    by (intros; eapply normalized_key_inj; eassumption).
  clear Hno. induction Hnd as [| k keys Hk Hnd IH]; cbn; constructor.
  - intro Hin. apply in_map_iff in Hin. destruct Hin as (k' & Heq & Hin').
    apply Hk. rewrite (Hinj k k'); [exact Hin' | left; reflexivity
      | right; exact Hin' | symmetry; exact Heq].
  - apply IH. intros a b Ha Hb. apply Hinj; right; assumption.
Qed.

Lemma serialize_fold (d acc : pydict) :
  NoDup (map normalized_key (dict_keys d)) ->
  (forall k, In k (dict_keys d) -> ~ In (normalized_key k) (dict_keys acc)) ->
  fold_left (serialize_item py_str) d acc
  = (acc ++ map (normalized_item py_str) d)%list.
Proof.
  revert acc. induction d as [| [k v] d IH]; intros acc Hnd Hfresh;
    cbn [fold_left map].
  - rewrite app_nil_r. reflexivity.
  - cbn in Hnd. inversion Hnd as [| ? ? Hk Hnd']; subst.
    rewrite serialize_item_normalized. cbn [normalized_item fst snd].
    rewrite dict_set_fresh by (apply Hfresh; left; reflexivity).
    rewrite IH.
    + rewrite <- app_assoc. reflexivity.
    + exact Hnd'.
    + intros k' Hk' Hin. unfold dict_keys in Hin.
      rewrite map_app in Hin. apply in_app_or in Hin.
      destruct Hin as [Hin | [Heq | []]].
      * exact (Hfresh k' (or_intror Hk') Hin).
      * cbn in Heq. apply Hk. rewrite Heq.
        apply in_map. exact Hk'.
Qed.

Lemma serialize_map (d : pydict) :
  NoDup (dict_keys d) ->
  ~ (In "_id" (dict_keys d) /\ In "id" (dict_keys d)) ->
  serialize py_str (PDict d) = Ok (PDict (map (normalized_item py_str) d)).
Proof.
  intros Hnd Hno. unfold serialize.
  rewrite serialize_fold; [reflexivity | | intros k _ []].
  apply normalized_keys_NoDup; assumption.
Qed.

(** C7 (amended).  For a record with distinct keys that does not carry both
    [_id] and [id], [serialize] answers a record with as many fields where:
    the field [_id] has become [id], with the stringified value; any other
    field whose value has [isoformat] holds that rendering; any other field
    whose value is an [ObjectId] holds the stringified value; and every
    remaining field holds its value unchanged. *)
Theorem serialize_normalizes (d : pydict) :
  NoDup (dict_keys d) ->
  ~ (In "_id" (dict_keys d) /\ In "id" (dict_keys d)) ->
  exists out,
    serialize py_str (PDict d) = Ok (PDict out) /\
    length out = length d /\
    dict_get "_id" out = None /\
    forall k v, In (k, v) d ->
      (k = "_id" -> dict_get "id" out = Some (PStr (py_str v))) /\
      (k <> "_id" -> hasattr_isoformat v = true ->
       dict_get k out = Some (PStr (isoformat v))) /\
      (k <> "_id" -> hasattr_isoformat v = false ->
       isinstance_ObjectId v = true ->
       dict_get k out = Some (PStr (py_str v))) /\
      (k <> "_id" -> hasattr_isoformat v = false ->
       isinstance_ObjectId v = false ->
       dict_get k out = Some v).
Proof.
  intros Hnd Hno. exists (map (normalized_item py_str) d).
  assert (Hkeys : dict_keys (map (normalized_item py_str) d)
                  = map normalized_key (dict_keys d)).
  { unfold dict_keys. rewrite !map_map. reflexivity. }
  assert (Hnd' : NoDup (dict_keys (map (normalized_item py_str) d))).
  { rewrite Hkeys. apply normalized_keys_NoDup; assumption. }
  split; [apply serialize_map; assumption|].
  split; [apply length_map|].
  split.
  { apply dict_get_not_In. rewrite Hkeys. intro Hin.
    apply in_map_iff in Hin. destruct Hin as (k & Hk & _).
    unfold normalized_key in Hk.
    destruct (String.eqb_spec k "_id"); [discriminate | contradiction]. }
  intros k v Hin.
  assert (Hget : dict_get (normalized_key k) (map (normalized_item py_str) d)
                 = Some (normalized_value py_str k v)).
  { apply dict_get_In; [exact Hnd'|].
    change (normalized_key k, normalized_value py_str k v)
      with (normalized_item py_str (k, v)).
    apply in_map; exact Hin. }
  unfold normalized_key, normalized_value in Hget.
  repeat split.
  - intros ->. exact Hget.
  - intros Hk Hiso. apply String.eqb_neq in Hk. rewrite Hk, Hiso in Hget.
    exact Hget.
  - intros Hk Hiso Hoid. apply String.eqb_neq in Hk.
    rewrite Hk, Hiso, Hoid in Hget. exact Hget.
  - intros Hk Hiso Hoid. apply String.eqb_neq in Hk.
    rewrite Hk, Hiso, Hoid in Hget. exact Hget.
Qed.

End SerializeFacts.

(** C7, witness: a stored transaction with an identifier and a timestamp. *)
Lemma serialize_normalizes_witness :
  NoDup (dict_keys stored_transaction) /\
  ~ (In "_id" (dict_keys stored_transaction)
     /\ In "id" (dict_keys stored_transaction)) /\
  exists out,
    serialize str_basic (PDict stored_transaction) = Ok (PDict out) /\
    dict_get "id" out = Some (PStr "65a1b2c3d4e5f60718293a4b") /\
    dict_get "created_at" out = Some (PStr "2024-01-02T03:04:05") /\
    dict_get "amount" out = Some (PFloat 100%float).
Proof.
  assert (Hnd : NoDup (dict_keys stored_transaction)).
  { repeat constructor; cbn; intuition discriminate. }
  assert (Hno : ~ (In "_id" (dict_keys stored_transaction)
                   /\ In "id" (dict_keys stored_transaction))).
  { cbn. intuition discriminate. }
  split; [exact Hnd|]. split; [exact Hno|].
  destruct (serialize_normalizes str_basic stored_transaction Hnd Hno)
    as (out & Hs & _ & _ & Hfields).
  exists out. split; [exact Hs|].
  split; [|split].
  - apply (proj1 (Hfields "_id" (PObjectId "65a1b2c3d4e5f60718293a4b")
                    (or_introl eq_refl))).
    reflexivity.
  - apply (proj1 (proj2 (Hfields "created_at" (PDatetime "2024-01-02T03:04:05")
                           ltac:(cbn; auto))));
      [discriminate | reflexivity].
  - apply (proj2 (proj2 (proj2 (Hfields "amount" (PFloat 100%float)
                                  ltac:(cbn; auto)))));
      [discriminate | reflexivity | reflexivity].
Defined.

(** C7 as stated fails: the field [owner], which is not [_id] and whose
    value is not a date, does not pass through unchanged; its [ObjectId]
    comes out as a string. *)
Lemma serialize_stringifies_other_object_ids :
  serialize str_basic (PDict stored_with_reference)
  = Ok (PDict [("id", PStr "65a1b2c3d4e5f60718293a4b");
               ("owner", PStr "507f1f77bcf86cd799439011")]) /\
  dict_get "owner" stored_with_reference
  = Some (PObjectId "507f1f77bcf86cd799439011") /\
  hasattr_isoformat (PObjectId "507f1f77bcf86cd799439011") = false /\
  PStr "507f1f77bcf86cd799439011" <> PObjectId "507f1f77bcf86cd799439011".
Proof. repeat split; try reflexivity. discriminate. Qed.

(** ** The diagnostics endpoint *)

Lemma str_prefix_length (n : nat) (s : string) :
  (String.length (str_prefix n s) <= n)%nat.
Proof.
  unfold str_prefix. revert s.
  induction n as [| n IH]; intro s; destruct s as [| c s]; cbn; try lia.
  specialize (IH s). lia.
Qed.

Lemma py_slice10_length (x y : pyval) :
  py_slice10 x = Ok y -> (py_len y <= 10)%nat.
Proof.
  intro H. destruct x; try discriminate H; unfold py_slice10 in H.
  - assert (y = PStr (str_prefix 10 s)) as -> by congruence.
    apply str_prefix_length.
  - assert (y = PList (firstn 10 l)) as -> by congruence.
    apply firstn_le_length.
Qed.

Section DiagnosticsFacts.

Context {W : Type} (h : handler W).

(** What the probe leaves in the dict, for every answer of the storage
    collaborator. *)
Lemma probe_database_run (w : W) :
  let imp := h _ ImportDb w in
  exists u n c colls w' tr,
    run h (probe_database initial_response) w
    = (inl [("backend", PStr "✅ Running");
            ("database",
             PStr (match fst imp with
                   | Err (PyErr ImportError _) =>
                       "❌ Database module not found (run enable-database first)"
                   | Err (PyErr _ msg) => "❌ Error: " ++ str_prefix 50 msg
                   | Ok None => "⚠️  Available but not initialized"
                   | Ok (Some db) =>
                       match fst (h _ (ListCollectionNames db) (snd imp)) with
                       | Err (PyErr _ msg) =>
                           "⚠️  Connected but Error: " ++ str_prefix 50 msg
                       | Ok names =>
                           match py_slice10 names with
                           | Ok _ => "✅ Connected & Working"
                           | Err (PyErr _ msg) =>
                               "⚠️  Connected but Error: " ++ str_prefix 50 msg
                           end
                       end
                   end));
            ("database_url", u);
            ("database_name", n);
            ("connection_status", c);
            ("collections", colls)], w', tr) /\
    (py_len colls <= 10)%nat.
Proof.
  intro imp. subst imp. unfold probe_database, call. cbn.
  destruct (h _ ImportDb w) as [[[db |] | [cls msg]] w1]; cbn.
  - destruct (h _ (ListCollectionNames db) w1) as [[names | [cls msg]] w2]; cbn.
    + destruct (py_slice10 names) as [first10 | [cls msg]] eqn:Hs; cbn.
      * do 6 eexists. split; [reflexivity|].
        eapply py_slice10_length; eassumption.
      * do 6 eexists. split; [reflexivity | cbn; lia].
    + do 6 eexists. split; [reflexivity | cbn; lia].
  - do 6 eexists. split; [reflexivity | cbn; lia].
  - destruct cls; cbn; do 6 eexists; (split; [reflexivity | cbn; lia]).
Qed.

(** C9.  Whatever the storage collaborator does (module absent, import
    failing otherwise, handle not initialised, query failing, healthy), the
    route answers 200 with the diagnostic object, never an error: the
    [database] field holds the status string of that state, and
    [collections] holds at most 10 entries. *)
Theorem test_database_always_answers (w : W) :
  let imp := h _ ImportDb w in
  exists response colls,
    outcome h get_test w = inl (mkHttp 200 (PDict response)) /\
    dict_get "backend" response = Some (PStr "✅ Running") /\
    dict_get "database" response
    = Some (PStr (match fst imp with
                  | Err (PyErr ImportError _) =>
                      "❌ Database module not found (run enable-database first)"
                  | Err (PyErr _ msg) => "❌ Error: " ++ str_prefix 50 msg
                  | Ok None => "⚠️  Available but not initialized"
                  | Ok (Some db) =>
                      match fst (h _ (ListCollectionNames db) (snd imp)) with
                      | Err (PyErr _ msg) =>
                          "⚠️  Connected but Error: " ++ str_prefix 50 msg
                      | Ok names =>
                          match py_slice10 names with
                          | Ok _ => "✅ Connected & Working"
                          | Err (PyErr _ msg) =>
                              "⚠️  Connected but Error: " ++ str_prefix 50 msg
                          end
                      end
                  end)) /\
    dict_get "collections" response = Some colls /\
    (py_len colls <= 10)%nat.
Proof.
  intro imp.
  destruct (probe_database_run w) as (u & n & c & colls & w1 & tr & Hrun & Hlen).
  fold imp in Hrun.
  unfold outcome, get_test. rewrite run_respond.
  unfold test_database. rewrite run_bind, Hrun.
  unfold report_configuration, perform. cbn.
  destruct (h _ (Getenv "DATABASE_URL") w1) as [url w2].
  destruct (h _ (Getenv "DATABASE_NAME") w2) as [name w3].
  cbn. do 2 eexists. split; [reflexivity|].
  repeat split; try reflexivity. exact Hlen.
Qed.

(** What the configuration report writes, when the environment answers
    [os.getenv] from the variables [env]. *)
Lemma test_database_configuration (env : string -> option string) (w : W) :
  reads_environ h env ->
  exists response,
    outcome h test_database w = inl (PDict response) /\
    dict_get "database_url" response
    = Some (PStr (if opt_truthy (env "DATABASE_URL")
                  then "✅ Set" else "❌ Not Set")) /\
    dict_get "database_name" response
    = Some (PStr (if opt_truthy (env "DATABASE_NAME")
                  then "✅ Set" else "❌ Not Set")).
Proof.
  intro Henv.
  destruct (probe_database_run w) as (u & n & c & colls & w1 & tr & Hrun & _).
  unfold outcome, test_database. rewrite run_bind, Hrun.
  unfold report_configuration, perform. cbn.
  pose proof (Henv "DATABASE_URL" w1) as Hu.
  destruct (h _ (Getenv "DATABASE_URL") w1) as [url w2].
  pose proof (Henv "DATABASE_NAME" w2) as Hn.
  destruct (h _ (Getenv "DATABASE_NAME") w2) as [name w3].
  cbn in Hu, Hn |- *. subst url name.
  eexists. split; [reflexivity|]. split; reflexivity.
Qed.

End DiagnosticsFacts.

(** C10 (amended).  In the final response the fields [database_url] and
    [database_name] are each one of the two strings "Set" / "Not Set", and
    they depend only on whether the corresponding variable is set to a
    non-empty value: two environments that agree on that, for both
    variables, get identical fields, whatever the values and whatever the
    storage collaborator does.  The values themselves never appear. *)
Theorem configuration_fields_depend_on_presence
    (W1 W2 : Type) (h1 : handler W1) (h2 : handler W2) (w1 : W1) (w2 : W2)
    (env1 env2 : string -> option string) :
  reads_environ h1 env1 ->
  reads_environ h2 env2 ->
  opt_truthy (env1 "DATABASE_URL") = opt_truthy (env2 "DATABASE_URL") ->
  opt_truthy (env1 "DATABASE_NAME") = opt_truthy (env2 "DATABASE_NAME") ->
  exists r1 r2,
    outcome h1 test_database w1 = inl (PDict r1) /\
    outcome h2 test_database w2 = inl (PDict r2) /\
    dict_get "database_url" r1 = dict_get "database_url" r2 /\
    dict_get "database_name" r1 = dict_get "database_name" r2 /\
    (dict_get "database_url" r1 = Some (PStr "✅ Set") \/
     dict_get "database_url" r1 = Some (PStr "❌ Not Set")) /\
    (dict_get "database_name" r1 = Some (PStr "✅ Set") \/
     dict_get "database_name" r1 = Some (PStr "❌ Not Set")).
Proof.
  intros He1 He2 Hu Hn.
  destruct (test_database_configuration h1 env1 w1 He1) as (r1 & Ho1 & Hu1 & Hn1).
  destruct (test_database_configuration h2 env2 w2 He2) as (r2 & Ho2 & Hu2 & Hn2).
  exists r1, r2. split; [exact Ho1|]. split; [exact Ho2|].
  rewrite Hu1, Hn1, Hu2, Hn2, Hu, Hn.
  split; [reflexivity|]. split; [reflexivity|].
  split.
  - destruct (opt_truthy (env2 "DATABASE_URL")); auto.
  - destruct (opt_truthy (env2 "DATABASE_NAME")); auto.
Qed.

(** C9 on the healthy deployment and on the one without the module. *)
Example test_database_healthy :
  outcome (deployment configured) get_test (healthy quote)
  = inl (mkHttp 200
           (PDict [("backend", PStr "✅ Running");
                   ("database", PStr "✅ Connected & Working");
                   ("database_url", PStr "✅ Set");
                   ("database_name", PStr "✅ Set");
                   ("connection_status", PStr "Connected");
                   ("collections", PList [])])).
Proof. reflexivity. Qed.

Example test_database_without_module :
  outcome (deployment unconfigured) get_test (without_database quote)
  = inl (mkHttp 200
           (PDict [("backend", PStr "✅ Running");
                   ("database",
                    PStr "❌ Database module not found (run enable-database first)");
                   ("database_url", PStr "❌ Not Set");
                   ("database_name", PStr "❌ Not Set");
                   ("connection_status", PStr "Not Connected");
                   ("collections", PList [])])).
Proof. reflexivity. Qed.

(** C10, witness: two deployments whose variables are set to different
    values, one with a store and one without the module. *)
Lemma configuration_fields_depend_on_presence_witness :
  opt_truthy (getenv "DATABASE_URL" configured)
  = opt_truthy (getenv "DATABASE_URL" configured_elsewhere) /\
  opt_truthy (getenv "DATABASE_NAME" configured)
  = opt_truthy (getenv "DATABASE_NAME" configured_elsewhere) /\
  exists r1 r2,
    outcome (deployment configured) test_database (healthy quote)
    = inl (PDict r1) /\
    outcome (deployment configured_elsewhere) test_database (without_database quote)
    = inl (PDict r2) /\
    dict_get "database_url" r1 = dict_get "database_url" r2 /\
    dict_get "database_name" r1 = dict_get "database_name" r2.
Proof.
  split; [reflexivity|]. split; [reflexivity|].
  destruct (configuration_fields_depend_on_presence World World
              (deployment configured) (deployment configured_elsewhere)
              (healthy quote) (without_database quote)
              (fun key => getenv key configured)
              (fun key => getenv key configured_elsewhere)
              (fun key w => eq_refl) (fun key w => eq_refl) eq_refl eq_refl)
    as (r1 & r2 & H1 & H2 & Hu & Hn & _).
  exists r1, r2. auto.
Defined.

(** C10 as stated fails: [DATABASE_URL] is present in both environments,
    with different values, and the two responses differ in [database_url];
    a variable set to the empty string is reported as not set. *)
Lemma empty_variable_reported_not_set :
  getenv "DATABASE_URL" configured = Some "mongodb://localhost:27017" /\
  getenv "DATABASE_URL" empty_url = Some "" /\
  getenv "DATABASE_NAME" configured = getenv "DATABASE_NAME" empty_url /\
  outcome (deployment configured) test_database (healthy quote)
  = inl (PDict [("backend", PStr "✅ Running");
                ("database", PStr "✅ Connected & Working");
                ("database_url", PStr "✅ Set");
                ("database_name", PStr "✅ Set");
                ("connection_status", PStr "Connected");
                ("collections", PList [])]) /\
  outcome (deployment empty_url) test_database (healthy quote)
  = inl (PDict [("backend", PStr "✅ Running");
                ("database", PStr "✅ Connected & Working");
                ("database_url", PStr "❌ Not Set");
                ("database_name", PStr "✅ Set");
                ("connection_status", PStr "Connected");
                ("collections", PList [])]).
Proof. repeat split; reflexivity. Qed.

(** ** Round trip through the store *)

Section RoundTrip.

Variable py_str : pyval -> string.
Variable float_of_str : string -> option float.
Variable environ : list (string * string).

Lemma serialize_all_dicts (ds : list pydict) :
  serialize_all py_str (map PDict ds)
  = Ok (map (fun d => PDict (fold_left (serialize_item py_str) d [])) ds).
Proof.
  induction ds as [| d ds IH]; cbn [map serialize_all serialize];
    [reflexivity|].
  rewrite IH. reflexivity.
Qed.

Lemma getDocuments_dicts (collection : string) (limit : Z) (s : Store) :
  getDocuments collection limit s
  = map PDict
      (firstn (Z.to_nat limit)
         (map (fun d => ("_id", fst (snd d)) :: snd (snd d))
            (filter (fun d => String.eqb (fst d) collection) (documents s)))).
Proof.
  unfold getDocuments. rewrite <- firstn_map, map_map. reflexivity.
Qed.

#[local] Arguments getDocuments : simpl never.

(** With a working store the listing answers with the normalized form of
    every document the store returns. *)
Lemma list_transactions_run (w : World) (s : Store) (limit : Z) :
  database w = Some (Some s) ->
  exists ds,
    getDocuments "exchange" limit s = map PDict ds /\
    outcome (deployment environ) (list_transactions py_str limit) w
    = inl (PDict [("items",
                   PList (map (fun d => PDict (fold_left (serialize_item py_str) d []))
                            ds))]).
Proof.
  intro Hdb. eexists. split; [apply getDocuments_dicts|].
  unfold outcome, list_transactions, call.
  cbn. rewrite Hdb. cbn. rewrite Hdb. cbn.
  rewrite getDocuments_dicts, serialize_all_dicts. reflexivity.
Qed.

(** C5.  When the conversion endpoint answers a record bearing an [id], the
    record was persisted: the store of the resulting deployment holds it in
    the collection "exchange" under that identifier, and returns it for
    every positive limit.  Any later listing, in any state of the
    deployment, whose query returns that document lists it with
    [from_currency], [to_currency], [amount], [rate] and [result] as they
    were persisted and with [id] the stringified identifier. *)
Theorem persisted_record_round_trips (w w1 : World) (payload : ConvertRequest)
    (tx : pydict) (ident : pyval) (tr : trace) :
  run (deployment environ) (convert_currency float_of_str payload) w
  = (inl (PDict tx), w1, tr) ->
  dict_get "id" tx = Some ident ->
  exists rate result s1,
    let record :=
      build_tx (upper (from_currency payload)) (upper (to_currency payload))
        (amount payload) rate result in
    tx = (record ++ [("id", ident)])%list /\
    database w1 = Some (Some s1) /\
    (forall limit, 0 < limit ->
       In (PDict (("_id", ident) :: record)) (getDocuments "exchange" limit s1)) /\
    (forall (w2 : World) (s2 : Store) (limit : Z),
       database w2 = Some (Some s2) ->
       In (PDict (("_id", ident) :: record)) (getDocuments "exchange" limit s2) ->
       exists items,
         outcome (deployment environ) (list_transactions py_str limit) w2
         = inl (PDict [("items", PList items)]) /\
         In (PDict (("id", PStr (py_str ident)) :: record)) items).
Proof.
  intros Hrun Hid.
  unfold convert_currency in Hrun. rewrite run_bind in Hrun.
  destruct (fetch_conversion_run float_of_str (deployment environ) w
              (upper (from_currency payload)) (upper (to_currency payload))
              (amount payload))
    as (o & Hfetch & [(d & ->) | [(e & ->) | Hok]]);
    rewrite Hfetch in Hrun; try discriminate Hrun.
  destruct Hok as (r & data & rate & result & _ & _ & _ & _ & _ & _ & _ & ->).
  cbn [fst snd deployment] in Hrun.
  unfold persist, call in Hrun. cbn in Hrun.
  destruct (database w) as [[s |] |] eqn:Hdb;
    cbn in Hrun; rewrite ?Hdb in Hrun; cbn in Hrun;
    injection Hrun as <- <- <-; cbn in Hid; try discriminate Hid.
  injection Hid as <-.
  exists rate, result. eexists. cbn zeta.
  split; [reflexivity|]. split; [reflexivity|]. split.
  - intros limit Hlimit. unfold getDocuments. cbn.
    destruct (Z.to_nat limit) eqn:Hn; [lia|]. left; reflexivity.
  - intros w2 s2 limit Hdb2 Hin.
    destruct (list_transactions_run w2 s2 limit Hdb2) as (ds & Hds & ->).
    eexists. split; [reflexivity|].
    rewrite Hds in Hin. apply in_map_iff in Hin.
    destruct Hin as (d & Hd & Hin). injection Hd as ->.
    apply in_map_iff. eexists. split; [|exact Hin]. reflexivity.
Qed.

End RoundTrip.

(** C5, witness: the spec's scenario; the listing that follows the
    conversion returns the record with its identifier as a string. *)
Lemma persisted_record_round_trips_witness :
  exists w1 items,
    outcome (deployment configured) (post_api_convert float_of_digits usd_to_eur)
      (healthy quote)
    = inl (mkHttp 200 (PDict (build_tx "USD" "EUR" 100%float 0.75%float 75%float
                                ++ [("id", PObjectId "1")])%list)) /\
    database w1 = Some (Some (mkStore 2
      [("exchange", (PObjectId "1",
                     build_tx "USD" "EUR" 100%float 0.75%float 75%float))])) /\
    outcome (deployment configured) (list_transactions str_basic 10) w1
    = inl (PDict [("items", PList items)]) /\
    In (PDict (("id", PStr "1")
               :: build_tx "USD" "EUR" 100%float 0.75%float 75%float)) items.
Proof.
  pose (w1 := snd (fst (run (deployment configured)
                          (convert_currency float_of_digits usd_to_eur)
                          (healthy quote)))).
  pose (tr := snd (run (deployment configured)
                     (convert_currency float_of_digits usd_to_eur)
                     (healthy quote))).
  destruct (persisted_record_round_trips str_basic float_of_digits configured
              (healthy quote) w1 usd_to_eur
              (build_tx "USD" "EUR" 100%float 0.75%float 75%float
               ++ [("id", PObjectId "1")])%list
              (PObjectId "1") tr eq_refl eq_refl)
    as (rate & result & s1 & Htx & Hdb & Hstored & Hlisted).
  injection Htx as <- <-.
  destruct (Hlisted w1 s1 10 Hdb (Hstored 10 ltac:(lia))) as (items & Ho & Hin).
  exists w1, items. split; [reflexivity|]. split; [reflexivity|].
  split; [exact Ho | exact Hin].
Defined.

(** ** Further properties of the rates endpoint *)

Lemma append_nonempty (a b d : string) (c : ascii) :
  String.eqb (a ++ (String c b ++ d)) "" = false.
Proof. destruct a; reflexivity. Qed.

Lemma raise_for_status_error (r : Response) :
  400 <= status_code r < 600 ->
  raise_for_status r
  = Err (PyErr RequestException
           (str_of_Z (status_code r)
            ++ (if status_code r <? 500 then " Client Error: "
                else " Server Error: ")
            ++ reason r ++ " for url: " ++ url r)).
Proof.
  intro Hs. unfold raise_for_status.
  destruct (400 <=? status_code r) eqn:H4;
    [|apply Z.leb_gt in H4; lia].
  destruct (status_code r <? 500) eqn:H5; cbn [andb].
  - rewrite append_nonempty. reflexivity.
  - destruct (500 <=? status_code r) eqn:H6;
      [|apply Z.leb_gt in H6; apply Z.ltb_ge in H5; lia].
    destruct (status_code r <? 600) eqn:H7;
      [|apply Z.ltb_ge in H7; lia].
    cbn [andb]. rewrite append_nonempty. reflexivity.
Qed.

Lemma raise_for_status_no_error (r : Response) :
  status_code r < 400 \/ 600 <= status_code r ->
  raise_for_status r = Ok tt.
Proof.
  intro Hs. unfold raise_for_status.
  destruct (400 <=? status_code r) eqn:H4; cbn [andb].
  - apply Z.leb_le in H4.
    destruct (status_code r <? 500) eqn:H5; [apply Z.ltb_lt in H5; lia|].
    destruct (500 <=? status_code r) eqn:H6; cbn [andb]; [|reflexivity].
    destruct (status_code r <? 600) eqn:H7; [apply Z.ltb_lt in H7; lia|].
    reflexivity.
  - destruct (500 <=? status_code r) eqn:H6; [|reflexivity].
    apply Z.leb_le in H6. apply Z.leb_gt in H4. lia.
Qed.

Section MoreRatesFacts.

Context {W : Type} (h : handler W).

Local Ltac finish := eexists; (split; [reflexivity|]); eauto 12.
Local Ltac raised e := destruct e as [[] ?]; cbn; finish.

(** The rates handler makes exactly one call and ends with a value, a 502
    or an exception nothing catches. *)
Lemma get_rates_run (w : W) (base : string) (symbols : option string) :
  let op := RequestsGet (EXTERNAL_RATES_BASE ++ "/latest")
              (rates_params (upper base) symbols) 10 in
  exists o,
    run h (get_rates base symbols) w
    = (o, snd (h _ op w), [Ev op (fst (h _ op w))]) /\
    ((exists v, o = inl v) \/
     (exists d, o = inr (HTTPException 502 d)) \/
     (exists e, o = inr (Uncaught e))).
Proof.
  intro op. unfold get_rates. fold op.
  rewrite run_try_except, run_bind, run_call.
  destruct (h _ op w) as [[r | e] w1]; cbn [fst snd]; [|raised e].
  destruct (raise_for_status r) as [[] | e]; cbn [lift bind]; [|raised e].
  destruct (json r) as [data | e]; cbn [lift bind]; [|raised e].
  destruct data as [| | | | | |d| |]; try (cbn; finish).
  cbn [py_get lift bind].
  destruct (negb _); cbn; finish.
Qed.

(** X1.  Whatever the provider does, the rates route makes exactly one
    outbound call and never retries: a GET of the provider's [/latest] with
    a 10 second timeout, the base in upper case, and the symbols in upper
    case when they are given and not empty.  It never touches storage. *)
Theorem get_rates_single_call (w : W) (base : string) (symbols : option string) :
  let params :=
    match symbols with
    | Some (String c s) =>
        [("base", PStr (upper base));
         ("symbols", PStr (upper (String c s)))]
    | _ => [("base", PStr (upper base))]
    end in
  let op := RequestsGet "https://api.exchangerate.host/latest" params 10 in
  calls h (get_api_rates base symbols) w = [Ev op (fst (h _ op w))].
Proof.
  intros params op.
  assert (Hp : params = rates_params (upper base) symbols).
  { subst params. destruct symbols as [[| c s] |]; reflexivity. }
  unfold calls, get_api_rates. rewrite run_respond.
  destruct (get_rates_run w base symbols) as (o & Hrun & _).
  rewrite Hrun. subst op. rewrite Hp. reflexivity.
Qed.

(** X2.  The rates route answers 200, 502 or 500 and nothing else. *)
Theorem get_rates_outcomes (w : W) (base : string) (symbols : option string) :
  exists resp,
    outcome h (get_api_rates base symbols) w = inl resp /\
    (status resp = 200 \/ status resp = 502 \/ status resp = 500).
Proof.
  unfold outcome, get_api_rates. rewrite run_respond.
  destruct (get_rates_run w base symbols)
    as (o & -> & [(v & ->) | [(d & ->) | (e & ->)]]);
    cbn; eexists; (split; [reflexivity|]); auto.
Qed.

(** X3.  When [requests.get] raises a transport error, the rates route
    answers 502 and the detail is "Rates provider error: " followed by the
    error's text. *)
Theorem get_rates_transport_error (w : W) (base : string)
    (symbols : option string) (msg : string) :
  fst (h _ (RequestsGet (EXTERNAL_RATES_BASE ++ "/latest")
              (rates_params (upper base) symbols) 10) w)
  = Err (PyErr RequestException msg) ->
  outcome h (get_api_rates base symbols) w
  = inl (mkHttp 502 (PDict [("detail", PStr ("Rates provider error: " ++ msg))])).
Proof.
  intro Hr. unfold outcome, get_api_rates. rewrite run_respond.
  unfold get_rates. rewrite run_try_except, run_bind, run_call, Hr.
  reflexivity.
Qed.

(** X4.  When the provider answers with a 4xx or 5xx status, the rates
    route answers 502 whatever the body is; the detail carries the status,
    the reason and the URL as the requests library words them. *)
Theorem get_rates_http_error_status (w : W) (base : string)
    (symbols : option string) (r : Response) :
  fst (h _ (RequestsGet (EXTERNAL_RATES_BASE ++ "/latest")
              (rates_params (upper base) symbols) 10) w) = Ok r ->
  400 <= status_code r < 600 ->
  outcome h (get_api_rates base symbols) w
  = inl (mkHttp 502
           (PDict [("detail",
                    PStr ("Rates provider error: "
                          ++ str_of_Z (status_code r)
                          ++ (if status_code r <? 500 then " Client Error: "
                              else " Server Error: ")
                          ++ reason r ++ " for url: " ++ url r))])).
Proof.
  intros Hr Hs. unfold outcome, get_api_rates. rewrite run_respond.
  unfold get_rates. rewrite run_try_except, run_bind, run_call, Hr.
  cbn [fst snd lift bind]. rewrite (raise_for_status_error r Hs).
  reflexivity.
Qed.

(** X5.  When the provider's body is an object whose [success] field is
    present and falsy, the rates route answers 502 with the detail "Failed
    to fetch rates": the [HTTPException] raised inside the [try] is not
    taken for a transport error. *)
Theorem get_rates_failure_flag (w : W) (base : string)
    (symbols : option string) (r : Response) (data : pydict) :
  fst (h _ (RequestsGet (EXTERNAL_RATES_BASE ++ "/latest")
              (rates_params (upper base) symbols) 10) w) = Ok r ->
  status_code r < 400 \/ 600 <= status_code r ->
  json r = Ok (PDict data) ->
  no_failure_flag data = false ->
  outcome h (get_api_rates base symbols) w
  = inl (mkHttp 502 (PDict [("detail", PStr "Failed to fetch rates")])).
Proof.
  intros Hr Hs Hj Hf. unfold outcome, get_api_rates. rewrite run_respond.
  unfold get_rates. rewrite run_try_except, run_bind, run_call, Hr.
  cbn [fst snd lift bind]. rewrite (raise_for_status_no_error r Hs).
  cbn [lift bind]. rewrite Hj. cbn [py_get lift bind].
  rewrite truthy_success, Hf. reflexivity.
Qed.

(** X6.  When the provider's body decodes to JSON that is not an object (a
    list, a string, a number, null), the rates route fails with 500: the
    [AttributeError] of [data.get] is not a transport error and nothing
    else catches it. *)
Theorem get_rates_body_not_an_object (w : W) (base : string)
    (symbols : option string) (r : Response) (data : pyval) :
  fst (h _ (RequestsGet (EXTERNAL_RATES_BASE ++ "/latest")
              (rates_params (upper base) symbols) 10) w) = Ok r ->
  status_code r < 400 \/ 600 <= status_code r ->
  json r = Ok data ->
  (forall d, data <> PDict d) ->
  outcome h (get_api_rates base symbols) w
  = inl (mkHttp 500 (PStr "Internal Server Error")).
Proof.
  intros Hr Hs Hj Hd. unfold outcome, get_api_rates. rewrite run_respond.
  unfold get_rates. rewrite run_try_except, run_bind, run_call, Hr.
  cbn [fst snd lift bind]. rewrite (raise_for_status_no_error r Hs).
  cbn [lift bind]. rewrite Hj.
  destruct data; try reflexivity.
  exfalso. apply (Hd d). reflexivity.
Qed.

(** X7.  Only a 4xx or 5xx status counts as an HTTP failure: for any other
    status (1xx, 3xx, 6xx as much as 2xx), an object body without a failure
    flag is answered with 200 and the snapshot. *)
Theorem get_rates_any_other_status (w : W) (base : string)
    (symbols : option string) (r : Response) (data : pydict) :
  fst (h _ (RequestsGet (EXTERNAL_RATES_BASE ++ "/latest")
              (rates_params (upper base) symbols) 10) w) = Ok r ->
  status_code r < 400 \/ 600 <= status_code r ->
  json r = Ok (PDict data) ->
  no_failure_flag data = true ->
  outcome h (get_api_rates base symbols) w
  = inl (mkHttp 200
           (PDict [("base", match dict_get "base" data with
                            | Some b => b
                            | None => PStr (upper base)
                            end);
                   ("date", match dict_get "date" data with
                            | Some d => d
                            | None => PNone
                            end);
                   ("rates", match dict_get "rates" data with
                             | Some rs => rs
                             | None => PDict []
                             end)])).
Proof.
  intros Hr Hs Hj Hf. unfold outcome, get_api_rates. rewrite run_respond.
  unfold get_rates. rewrite run_try_except, run_bind, run_call, Hr.
  cbn [fst snd lift bind]. rewrite (raise_for_status_no_error r Hs).
  cbn [lift bind]. rewrite Hj. cbn [py_get lift bind].
  rewrite truthy_success, Hf. reflexivity.
Qed.

End MoreRatesFacts.

(** X3, witness: the provider cannot be reached. *)
Lemma get_rates_transport_error_witness :
  outcome (deployment configured) (get_api_rates "usd" None) unreachable
  = inl (mkHttp 502
           (PDict [("detail",
                    PStr "Rates provider error: connection refused")])).
Proof.
  exact (get_rates_transport_error (deployment configured) unreachable
           "usd" None "connection refused" eq_refl).
Defined.

(** X4, witness: the provider answers 503. *)
Lemma get_rates_http_error_status_witness :
  (400 <= 503 < 600) /\
  outcome (deployment configured) (get_api_rates "usd" None)
    (answering 503 "Service Unavailable" rates_body)
  = inl (mkHttp 502
           (PDict [("detail",
                    PStr ("Rates provider error: 503 Server Error: "
                          ++ "Service Unavailable for url: "
                          ++ "https://api.exchangerate.host/latest"))])).
Proof.
  split; [lia|].
  exact (get_rates_http_error_status (deployment configured)
           (answering 503 "Service Unavailable" rates_body) "usd" None
           (mkResponse 503 "Service Unavailable"
              (EXTERNAL_RATES_BASE ++ "/latest") (Ok rates_body))
           eq_refl ltac:(cbn; lia)).
Defined.

(** X5, witness: a 200 answer with [success: false]. *)
Lemma get_rates_failure_flag_witness :
  no_failure_flag [("success", PBool false); ("result", PFloat 75%float)]
  = false /\
  outcome (deployment configured) (get_api_rates "usd" None)
    (healthy refused_quote)
  = inl (mkHttp 502 (PDict [("detail", PStr "Failed to fetch rates")])).
Proof.
  split; [reflexivity|].
  exact (get_rates_failure_flag (deployment configured) (healthy refused_quote)
           "usd" None
           (mkResponse 200 "OK" (EXTERNAL_RATES_BASE ++ "/latest")
              (Ok refused_quote))
           [("success", PBool false); ("result", PFloat 75%float)]
           eq_refl ltac:(cbn; lia) eq_refl eq_refl).
Defined.

(** X6, witness: a 200 answer whose body is a JSON list. *)
Lemma get_rates_body_not_an_object_witness :
  (forall d, not_an_object <> PDict d) /\
  outcome (deployment configured) (get_api_rates "usd" None)
    (healthy not_an_object)
  = inl (mkHttp 500 (PStr "Internal Server Error")).
Proof.
  assert (Hd : forall d, not_an_object <> PDict d) by (intros d; discriminate).
  split; [exact Hd|].
  exact (get_rates_body_not_an_object (deployment configured)
           (healthy not_an_object) "usd" None
           (mkResponse 200 "OK" (EXTERNAL_RATES_BASE ++ "/latest")
              (Ok not_an_object))
           not_an_object eq_refl ltac:(cbn; lia) eq_refl Hd).
Defined.

(** X7, witness: the provider answers 304 with a snapshot. *)
Lemma get_rates_any_other_status_witness :
  (304 < 400 \/ 600 <= 304) /\
  outcome (deployment configured) (get_api_rates "usd" None)
    (answering 304 "Not Modified" rates_body)
  = inl (mkHttp 200
           (PDict [("base", PStr "USD"); ("date", PStr "2024-01-02");
                   ("rates", PDict [("EUR", PFloat 0.75%float);
                                    ("GBP", PFloat 0.5%float)])])).
Proof.
  split; [lia|].
  exact (get_rates_any_other_status (deployment configured)
           (answering 304 "Not Modified" rates_body) "usd" None
           (mkResponse 304 "Not Modified"
              (EXTERNAL_RATES_BASE ++ "/latest") (Ok rates_body))
           [("date", PStr "2024-01-02");
            ("rates", PDict [("EUR", PFloat 0.75%float);
                             ("GBP", PFloat 0.5%float)])]
           eq_refl ltac:(cbn; lia) eq_refl eq_refl).
Defined.

(** ** Further properties of the conversion endpoint *)

Section MoreConvertFacts.

Variable float_of_str : string -> option float.
Context {W : Type} (h : handler W).

(** The calls of the persistence phase: the import, then the write if the
    import went through. *)
Lemma persist_calls (w : W) (tx : pydict) :
  let imp := h _ (ImportFrom "database" "create_document") w in
  let cre := h _ (CreateDocument "exchange" tx) (snd imp) in
  exists v w',
    run h (persist tx) w
    = (inl v, w',
       Ev (ImportFrom "database" "create_document") (fst imp)
       :: match fst imp with
          | Ok _ => [Ev (CreateDocument "exchange" tx) (fst cre)]
          | Err _ => []
          end).
Proof.
  intros imp cre. subst cre imp. unfold persist, call. cbn.
  destruct (h _ (ImportFrom "database" "create_document") w) as [[[] | e] w1];
    cbn; [|eauto].
  destruct (h _ (CreateDocument "exchange" tx) w1) as [[ident | e] w2];
    cbn; eauto.
Qed.

(** X8.  Whenever the handler [convert_currency] raises, be it the
    [HTTPException] 502 or an exception it does not catch, it has made
    exactly one call, the GET of the provider's [/convert] with the codes in
    upper case, the amount as received and a 10 second timeout: there is no
    retry, and nothing is imported from or written to storage. *)
Theorem convert_failure_leaves_storage_alone (w : W) (payload : ConvertRequest)
    (e : exn) :
  let op :=
    RequestsGet "https://api.exchangerate.host/convert"
      [("from", PStr (upper (from_currency payload)));
       ("to", PStr (upper (to_currency payload)));
       ("amount", PFloat (amount payload))] 10 in
  outcome h (convert_currency float_of_str payload) w = inr e ->
  calls h (convert_currency float_of_str payload) w = [Ev op (fst (h _ op w))].
Proof.
  intros op.
  unfold outcome, calls, convert_currency. rewrite run_bind.
  destruct (fetch_conversion_run float_of_str h w
              (upper (from_currency payload)) (upper (to_currency payload))
              (amount payload))
    as (o & -> & [(d & ->) | [(e' & ->) | Hok]]); try reflexivity.
  destruct Hok as (r & data & rate & result & _ & _ & _ & _ & _ & _ & _ & ->).
  match goal with |- context [run h (persist ?tx) ?w1] =>
    destruct (persist_run h w1 tx) as (w' & tr & ->) end.
  cbn [fst snd]. discriminate.
Qed.

(** X9.  When the conversion route answers 200, its calls are, in this
    order: the one GET of the provider's [/convert]; the import of
    [create_document]; and, only if that import went through, one write to
    the collection "exchange" of the five-field record, which carries no
    [id].  The body is that record, followed by the identifier when the
    write answered one. *)
Theorem convert_success_calls (w : W) (payload : ConvertRequest)
    (resp : http_response) :
  let op :=
    RequestsGet "https://api.exchangerate.host/convert"
      [("from", PStr (upper (from_currency payload)));
       ("to", PStr (upper (to_currency payload)));
       ("amount", PFloat (amount payload))] 10 in
  ConvertRequest_valid payload = true ->
  outcome h (post_api_convert float_of_str payload) w = inl resp ->
  status resp = 200 ->
  exists rate result,
    let record :=
      [("from_currency", PStr (upper (from_currency payload)));
       ("to_currency", PStr (upper (to_currency payload)));
       ("amount", PFloat (amount payload));
       ("rate", PFloat rate);
       ("result", PFloat result)] in
    let w1 := snd (h _ op w) in
    let imp := h _ (ImportFrom "database" "create_document") w1 in
    let cre := h _ (CreateDocument "exchange" record) (snd imp) in
    calls h (post_api_convert float_of_str payload) w
    = Ev op (fst (h _ op w))
      :: Ev (ImportFrom "database" "create_document") (fst imp)
      :: match fst imp with
         | Ok _ => [Ev (CreateDocument "exchange" record) (fst cre)]
         | Err _ => []
         end /\
    body resp = PDict (match fst imp, fst cre with
                       | Ok _, Ok ident => (record ++ [("id", ident)])%list
                       | _, _ => record
                       end).
Proof.
  intros op Hvalid. unfold outcome, calls, post_api_convert. rewrite Hvalid.
  rewrite run_respond. unfold convert_currency. rewrite run_bind.
  destruct (fetch_conversion_run float_of_str h w
              (upper (from_currency payload)) (upper (to_currency payload))
              (amount payload))
    as (o & -> & [(d & ->) | [(e & ->) | Hok]]).
  - cbn. intros H Hs. injection H as <-. discriminate Hs.
  - cbn. intros H Hs. injection H as <-. discriminate Hs.
  - destruct Hok as (r & data & rate & result & _ & _ & _ & _ & _ & _ & _ & ->).
    intros Ho _. exists rate, result. cbn zeta.
    fold (build_tx (upper (from_currency payload)) (upper (to_currency payload))
            (amount payload) rate result).
    revert Ho.
    match goal with |- context [run h (persist ?tx) ?w1] =>
      destruct (persist_calls w1 tx) as (v & w' & Hc);
      pose proof (persist_run h w1 tx) as (w'' & tr & Hr)
    end.
    rewrite Hc in Hr |- *. injection Hr as -> _ _.
    cbn [fst snd app]. intro Ho. injection Ho as <-.
    split; [reflexivity|].
    cbn [body fastapi_response].
    destruct (fst (h _ (ImportFrom _ _) _)); [|reflexivity].
    destruct (fst (h _ (CreateDocument _ _) _)); reflexivity.
Qed.

(** X10.  When [requests.get] raises a transport error, the conversion
    route answers 502 and the detail is "Conversion provider error: "
    followed by the error's text. *)
Theorem convert_transport_error (w : W) (payload : ConvertRequest) (msg : string) :
  ConvertRequest_valid payload = true ->
  fst (h _ (RequestsGet (EXTERNAL_RATES_BASE ++ "/convert")
              (convert_params (upper (from_currency payload))
                 (upper (to_currency payload)) (amount payload)) 10) w)
  = Err (PyErr RequestException msg) ->
  outcome h (post_api_convert float_of_str payload) w
  = inl (mkHttp 502
           (PDict [("detail", PStr ("Conversion provider error: " ++ msg))])).
Proof.
  intros Hvalid Hr. unfold outcome, post_api_convert. rewrite Hvalid.
  rewrite run_respond. unfold convert_currency. rewrite run_bind.
  unfold fetch_conversion. rewrite run_try_except, run_bind, run_call, Hr.
  reflexivity.
Qed.

(** X11.  When the provider answers with a 4xx or 5xx status, the
    conversion route answers 502 whatever the body is, with a detail that
    starts "Conversion provider error: " and carries the status, the reason
    and the URL. *)
Theorem convert_http_error_status (w : W) (payload : ConvertRequest)
    (r : Response) :
  ConvertRequest_valid payload = true ->
  fst (h _ (RequestsGet (EXTERNAL_RATES_BASE ++ "/convert")
              (convert_params (upper (from_currency payload))
                 (upper (to_currency payload)) (amount payload)) 10) w)
  = Ok r ->
  400 <= status_code r < 600 ->
  outcome h (post_api_convert float_of_str payload) w
  = inl (mkHttp 502
           (PDict [("detail",
                    PStr ("Conversion provider error: "
                          ++ str_of_Z (status_code r)
                          ++ (if status_code r <? 500 then " Client Error: "
                              else " Server Error: ")
                          ++ reason r ++ " for url: " ++ url r))])).
Proof.
  intros Hvalid Hr Hs. unfold outcome, post_api_convert. rewrite Hvalid.
  rewrite run_respond. unfold convert_currency. rewrite run_bind.
  unfold fetch_conversion. rewrite run_try_except, run_bind, run_call, Hr.
  cbn [fst snd lift bind]. rewrite (raise_for_status_error r Hs).
  reflexivity.
Qed.

(** X12.  When the provider's body is an object whose [success] field is
    present and falsy, the conversion route answers 502 with the detail
    "Failed to convert", whatever rate and result the body carries. *)
Theorem convert_failure_flag (w : W) (payload : ConvertRequest)
    (r : Response) (data : pydict) :
  ConvertRequest_valid payload = true ->
  fst (h _ (RequestsGet (EXTERNAL_RATES_BASE ++ "/convert")
              (convert_params (upper (from_currency payload))
                 (upper (to_currency payload)) (amount payload)) 10) w)
  = Ok r ->
  status_code r < 400 \/ 600 <= status_code r ->
  json r = Ok (PDict data) ->
  no_failure_flag data = false ->
  outcome h (post_api_convert float_of_str payload) w
  = inl (mkHttp 502 (PDict [("detail", PStr "Failed to convert")])).
Proof.
  intros Hvalid Hr Hs Hj Hf. unfold outcome, post_api_convert. rewrite Hvalid.
  rewrite run_respond. unfold convert_currency. rewrite run_bind.
  unfold fetch_conversion. rewrite run_try_except, run_bind, run_call, Hr.
  cbn [fst snd lift bind]. rewrite (raise_for_status_no_error r Hs).
  cbn [lift bind]. rewrite Hj. cbn [py_get lift bind].
  rewrite truthy_success, Hf. reflexivity.
Qed.

End MoreConvertFacts.

(** X8, witness: the provider cannot be reached; the store is never
    approached. *)
Lemma convert_failure_leaves_storage_alone_witness :
  outcome (deployment configured) (convert_currency float_of_digits usd_to_eur)
    unreachable
  = inr (HTTPException 502 "Conversion provider error: connection refused") /\
  calls (deployment configured) (convert_currency float_of_digits usd_to_eur)
    unreachable
  = [Ev (RequestsGet "https://api.exchangerate.host/convert"
           [("from", PStr "USD"); ("to", PStr "EUR");
            ("amount", PFloat 100%float)] 10)
        (Err (PyErr RequestException "connection refused"))].
Proof.
  split; [reflexivity|].
  exact (convert_failure_leaves_storage_alone float_of_digits
           (deployment configured) unreachable usd_to_eur
           (HTTPException 502 "Conversion provider error: connection refused")
           eq_refl).
Defined.

(** X9, witness: the spec's scenario on a healthy deployment. *)
Lemma convert_success_calls_witness :
  ConvertRequest_valid usd_to_eur = true /\
  exists rate result,
    calls (deployment configured) (post_api_convert float_of_digits usd_to_eur)
      (healthy quote)
    = [Ev (RequestsGet "https://api.exchangerate.host/convert"
             [("from", PStr "USD"); ("to", PStr "EUR");
              ("amount", PFloat 100%float)] 10)
          (Ok (mkResponse 200 "OK" "https://api.exchangerate.host/convert"
                 (Ok quote)));
       Ev (ImportFrom "database" "create_document") (Ok tt);
       Ev (CreateDocument "exchange"
             [("from_currency", PStr "USD"); ("to_currency", PStr "EUR");
              ("amount", PFloat 100%float); ("rate", PFloat rate);
              ("result", PFloat result)])
          (Ok (PObjectId "1"))].
Proof.
  split; [reflexivity|].
  destruct (convert_success_calls float_of_digits (deployment configured)
              (healthy quote) usd_to_eur
              (mkHttp 200
                 (PDict (build_tx "USD" "EUR" 100%float 0.75%float 75%float
                         ++ [("id", PObjectId "1")])%list))
              eq_refl eq_refl eq_refl)
    as (rate & result & Hcalls & _).
  exists rate, result. exact Hcalls.
Defined.

(** X10, witness: the provider cannot be reached. *)
Lemma convert_transport_error_witness :
  ConvertRequest_valid usd_to_eur = true /\
  outcome (deployment configured) (post_api_convert float_of_digits usd_to_eur)
    unreachable
  = inl (mkHttp 502
           (PDict [("detail",
                    PStr "Conversion provider error: connection refused")])).
Proof.
  split; [reflexivity|].
  exact (convert_transport_error float_of_digits (deployment configured)
           unreachable usd_to_eur "connection refused" eq_refl eq_refl).
Defined.

(** X11, witness: the spec's scenario, the provider answers 500. *)
Lemma convert_http_error_status_witness :
  ConvertRequest_valid usd_to_eur = true /\
  (400 <= 500 < 600) /\
  outcome (deployment configured) (post_api_convert float_of_digits usd_to_eur)
    (answering 500 "Internal Server Error" PNone)
  = inl (mkHttp 502
           (PDict [("detail",
                    PStr ("Conversion provider error: 500 Server Error: "
                          ++ "Internal Server Error for url: "
                          ++ "https://api.exchangerate.host/convert"))])).
Proof.
  split; [reflexivity|]. split; [lia|].
  exact (convert_http_error_status float_of_digits (deployment configured)
           (answering 500 "Internal Server Error" PNone) usd_to_eur
           (mkResponse 500 "Internal Server Error"
              (EXTERNAL_RATES_BASE ++ "/convert") (Ok PNone))
           eq_refl eq_refl ltac:(cbn; lia)).
Defined.

(** X12, witness: a 200 answer with [success: false] and a result. *)
Lemma convert_failure_flag_witness :
  ConvertRequest_valid usd_to_eur = true /\
  no_failure_flag [("success", PBool false); ("result", PFloat 75%float)]
  = false /\
  outcome (deployment configured) (post_api_convert float_of_digits usd_to_eur)
    (healthy refused_quote)
  = inl (mkHttp 502 (PDict [("detail", PStr "Failed to convert")])).
Proof.
  split; [reflexivity|]. split; [reflexivity|].
  exact (convert_failure_flag float_of_digits (deployment configured)
           (healthy refused_quote) usd_to_eur
           (mkResponse 200 "OK" (EXTERNAL_RATES_BASE ++ "/convert")
              (Ok refused_quote))
           [("success", PBool false); ("result", PFloat 75%float)]
           eq_refl eq_refl ltac:(cbn; lia) eq_refl eq_refl).
Defined.

(** ** Further properties of the normalization of stored records *)

Lemma dict_get_dict_set (k k' : string) (v : pyval) (d : pydict) :
  dict_get k (dict_set k' v d)
  = if String.eqb k k' then Some v else dict_get k d.
Proof.
  induction d as [| [k'' v''] d IH]; cbn.
  - destruct (String.eqb k k'); reflexivity.
  - destruct (String.eqb_spec k' k'') as [-> | Hne]; cbn.
    + destruct (String.eqb k k''); reflexivity.
    + destruct (String.eqb_spec k k'') as [-> | Hne'].
      * apply not_eq_sym in Hne. apply String.eqb_neq in Hne.
        rewrite Hne. reflexivity.
      * exact IH.
Qed.

Lemma dict_get_app (k : string) (d1 d2 : pydict) :
  dict_get k (d1 ++ d2)%list
  = match dict_get k d1 with
    | Some v => Some v
    | None => dict_get k d2
    end.
Proof.
  induction d1 as [| [k' v'] d1 IH]; cbn; [reflexivity|].
  destruct (String.eqb k k'); [reflexivity | exact IH].
Qed.

Lemma dict_set_length (k : string) (v : pyval) (d : pydict) :
  (List.length (dict_set k v d) <= S (List.length d))%nat.
Proof.
  induction d as [| [k' v'] d IH]; cbn; [lia|].
  destruct (String.eqb k k'); cbn; lia.
Qed.

Section MoreSerializeFacts.

Variable py_str : pyval -> string.

Lemma serialize_fold_lookup (k : string) (d acc : pydict) :
  dict_get k (fold_left (serialize_item py_str) d acc)
  = match dict_get_last k (map (normalized_item py_str) d) with
    | Some v => Some v
    | None => dict_get k acc
    end.
Proof.
  revert acc. induction d as [| kv d IH]; intro acc; [reflexivity|].
  cbn [fold_left map]. rewrite IH, serialize_item_normalized.
  unfold dict_get_last. cbn [rev]. rewrite dict_get_app, dict_get_dict_set.
  destruct (dict_get k (rev (map (normalized_item py_str) d))); [reflexivity|].
  destruct (normalized_item py_str kv) as [k' v']. cbn.
  destruct (String.eqb k k'); reflexivity.
Qed.

Lemma serialize_fold_length (d acc : pydict) :
  (List.length (fold_left (serialize_item py_str) d acc)
   <= List.length acc + List.length d)%nat.
Proof.
  revert acc. induction d as [| kv d IH]; intro acc; cbn [fold_left length].
  - lia.
  - specialize (IH (serialize_item py_str acc kv)).
    rewrite serialize_item_normalized in IH |- *.
    pose proof (dict_set_length (fst (normalized_item py_str kv))
                  (snd (normalized_item py_str kv)) acc).
    lia.
Qed.

Lemma normalized_key_not__id (k : string) : normalized_key k <> "_id".
Proof.
  unfold normalized_key.
  destruct (String.eqb_spec k "_id"); [discriminate | assumption].
Qed.

Lemma normalized_keys_without_id (d : pydict) :
  ~ In "_id" (dict_keys d) -> ~ In "id" (dict_keys d) ->
  ~ In "id" (dict_keys (rev (map (normalized_item py_str) d))).
Proof.
  intros Hno_id Hno. unfold dict_keys. rewrite map_rev, map_map.
  intro Hin. apply in_rev, in_map_iff in Hin.
  destruct Hin as ([k v] & Hk & Hin). cbn in Hk.
  assert (Hkin : In k (dict_keys d)).
  { unfold dict_keys. change k with (fst (k, v)). apply in_map; exact Hin. }
  unfold normalized_key in Hk.
  destruct (String.eqb_spec k "_id") as [-> | _]; [contradiction|].
  subst k. contradiction.
Qed.

(** X13.  For every record, whatever its keys, [serialize] answers a record
    in which each key holds the normalized value of the last field of the
    input that lands on that key: when [_id] and [id] are both present,
    both land on [id] and the later one in the record's order stays. *)
Theorem serialize_last_field_wins (d : pydict) (k : string) :
  exists out,
    serialize py_str (PDict d) = Ok (PDict out) /\
    dict_get k out = dict_get_last k (map (normalized_item py_str) d).
Proof.
  eexists. split; [reflexivity|].
  rewrite serialize_fold_lookup.
  destruct (dict_get_last k (map (normalized_item py_str) d)); reflexivity.
Qed.

(** X14.  If [(k, v)] is the last field of a record whose key is [_id] or
    [id], the [id] of the normalized record is decided by it alone: the
    stringified [v] when [k] is [_id], and otherwise [v] normalized like any
    other field, so that a stored field [id] that follows [_id] hides the
    storage identifier. *)
Theorem serialize_id_comes_from_last (d1 d2 : pydict) (k : string) (v : pyval) :
  k = "_id" \/ k = "id" ->
  ~ In "_id" (dict_keys d2) ->
  ~ In "id" (dict_keys d2) ->
  exists out,
    serialize py_str (PDict (d1 ++ (k, v) :: d2)%list) = Ok (PDict out) /\
    dict_get "id" out = Some (normalized_value py_str k v).
Proof.
  intros Hk Hno_id Hno. eexists. split; [reflexivity|].
  rewrite serialize_fold_lookup. unfold dict_get_last.
  rewrite map_app. cbn [map]. rewrite rev_app_distr. cbn [rev].
  rewrite <- app_assoc. rewrite dict_get_app.
  rewrite (dict_get_not_In "id" _ (normalized_keys_without_id d2 Hno_id Hno)).
  cbn [app dict_get normalized_item fst snd].
  assert (Hnk : normalized_key k = "id") by (destruct Hk; subst k; reflexivity).
  rewrite Hnk. reflexivity.
Qed.

(** X15.  For every record, the normalized record has no field [_id] and
    no more fields than the record had. *)
Theorem serialize_never_keeps_storage_key (d : pydict) :
  exists out,
    serialize py_str (PDict d) = Ok (PDict out) /\
    dict_get "_id" out = None /\
    (List.length out <= List.length d)%nat.
Proof.
  eexists. split; [reflexivity|]. split.
  - rewrite serialize_fold_lookup. unfold dict_get_last.
    rewrite dict_get_not_In; [reflexivity|].
    unfold dict_keys. rewrite map_rev, map_map.
    intro Hin. apply in_rev, in_map_iff in Hin.
    destruct Hin as ([k' v'] & Hk & _). cbn in Hk.
    exact (normalized_key_not__id k' Hk).
  - apply (serialize_fold_length d []).
Qed.

Lemma serialize_all_not_a_dict (docs : list pyval) (d : pyval) :
  In d docs -> (forall dd, d <> PDict dd) ->
  exists e, serialize_all py_str docs = Err e.
Proof.
  intros Hin Hd. induction docs as [| x docs IH]; [destruct Hin|].
  cbn [serialize_all].
  destruct (serialize py_str x) as [y | e] eqn:Hx; [|eauto].
  destruct Hin as [-> | Hin].
  - destruct d; try discriminate Hx. exfalso; apply (Hd d); reflexivity.
  - destruct (IH Hin) as (e & ->). eauto.
Qed.

End MoreSerializeFacts.

(** X14, witness: a stored document with a field [id] of its own after
    [_id]; the caller gets 7 and not the storage identifier. *)
Lemma serialize_id_comes_from_last_witness :
  ~ In "_id" (dict_keys [("amount", PFloat 100%float)]) /\
  ~ In "id" (dict_keys [("amount", PFloat 100%float)]) /\
  exists out,
    serialize str_basic (PDict stored_with_own_id) = Ok (PDict out) /\
    dict_get "id" out = Some (PInt 7).
Proof.
  assert (H1 : ~ In "_id" (dict_keys [("amount", PFloat 100%float)])).
  { cbn. intuition discriminate. }
  assert (H2 : ~ In "id" (dict_keys [("amount", PFloat 100%float)])).
  { cbn. intuition discriminate. }
  split; [exact H1|]. split; [exact H2|].
  exact (serialize_id_comes_from_last str_basic
           [("_id", PObjectId "65a1b2c3d4e5f60718293a4b")]
           [("amount", PFloat 100%float)] "id" (PInt 7)
           (or_intror eq_refl) H1 H2).
Defined.

(** ** Further properties of the transactions endpoint *)

Section MoreTransactionsFacts.

Variable py_str : pyval -> string.
Context {W : Type} (h : handler W).

(** X16.  The listing is all or nothing: when the query answers a sequence
    in which one element is not a mapping, the route answers 200 with an
    empty list, the well-formed documents included. *)
Theorem list_transactions_one_stray_document (w : W) (limit : Z)
    (docs : list pyval) (d : pyval) :
  let imp := h _ (ImportFrom "database" "get_documents") w in
  fst imp = Ok tt ->
  fst (h _ (GetDocuments "exchange" limit) (snd imp)) = Ok docs ->
  In d docs ->
  (forall dd, d <> PDict dd) ->
  outcome h (get_api_transactions py_str limit) w
  = inl (mkHttp 200 (PDict [("items", PList [])])).
Proof.
  intros imp Himp Hdocs Hin Hd. subst imp.
  destruct (serialize_all_not_a_dict py_str docs d Hin Hd) as (e & He).
  unfold outcome, get_api_transactions. rewrite run_respond.
  unfold list_transactions, call. cbn.
  destruct (h _ (ImportFrom "database" "get_documents") w) as [a1 w1].
  cbn in Himp, Hdocs. subst a1. cbn.
  destruct (h _ (GetDocuments "exchange" limit) w1) as [a2 w2].
  cbn in Hdocs. subst a2. cbn.
  destruct (h _ (ImportFrom "bson" "ObjectId") w2) as [[[] | e3] w3];
    cbn; [|reflexivity].
  rewrite He. reflexivity.
Qed.


(** X18.  The listing only reads.  Its calls are, in this order and each
    only if the one before went through: the import of [get_documents], one
    query of the collection "exchange" with the limit as received, the
    import of [ObjectId].  It never calls the rate provider and never
    writes. *)
Theorem list_transactions_calls (w : W) (limit : Z) :
  let imp := h _ (ImportFrom "database" "get_documents") w in
  let qry := h _ (GetDocuments "exchange" limit) (snd imp) in
  let bson := h _ (ImportFrom "bson" "ObjectId") (snd qry) in
  calls h (get_api_transactions py_str limit) w
  = Ev (ImportFrom "database" "get_documents") (fst imp)
    :: match fst imp with
       | Err _ => []
       | Ok _ =>
           Ev (GetDocuments "exchange" limit) (fst qry)
           :: match fst qry with
              | Err _ => []
              | Ok _ => [Ev (ImportFrom "bson" "ObjectId") (fst bson)]
              end
       end.
Proof.
  intros imp qry bson. subst bson qry imp.
  unfold calls, get_api_transactions. rewrite run_respond.
  unfold list_transactions, call. cbn.
  destruct (h _ (ImportFrom "database" "get_documents") w) as [[[] | e1] w1];
    cbn; [|reflexivity].
  destruct (h _ (GetDocuments "exchange" limit) w1) as [[docs | e2] w2];
    cbn; [|reflexivity].
  destruct (h _ (ImportFrom "bson" "ObjectId") w2) as [[[] | e3] w3];
    cbn; [|reflexivity].
  destruct (serialize_all py_str docs); reflexivity.
Qed.

End MoreTransactionsFacts.

(** ** Further properties of the diagnostics endpoint *)

Section MoreDiagnosticsFacts.

Context {W : Type} (h : handler W).

(** X19.  The diagnostics route only reads.  It imports [db]; it lists the
    collection names once, and only when [db] is not [None]; and whatever
    came before, it then reads [DATABASE_URL] and [DATABASE_NAME], in this
    order.  It never calls the rate provider, never queries and never
    writes. *)
Theorem test_database_calls (w : W) :
  let imp := h _ ImportDb w in
  exists w1 w2,
    calls h get_test w
    = (Ev ImportDb (fst imp)
       :: match fst imp with
          | Ok (Some db) =>
              [Ev (ListCollectionNames db)
                 (fst (h _ (ListCollectionNames db) (snd imp)))]
          | _ => []
          end
       ++ [Ev (Getenv "DATABASE_URL") (fst (h _ (Getenv "DATABASE_URL") w1));
           Ev (Getenv "DATABASE_NAME") (fst (h _ (Getenv "DATABASE_NAME") w2))])%list.
Proof.
  intro imp. subst imp.
  unfold calls, get_test. rewrite run_respond.
  unfold test_database, probe_database, report_configuration, call, perform.
  cbn.
  destruct (h _ ImportDb w) as [[[db |] | [cls msg]] w1]; cbn.
  - destruct (h _ (ListCollectionNames db) w1) as [[names | [cls msg]] w2]; cbn.
    + destruct (py_slice10 names) as [first10 | [cls msg]]; cbn;
        exists w2; destruct (h _ (Getenv "DATABASE_URL") w2) as [u w3]; cbn;
        exists w3; destruct (h _ (Getenv "DATABASE_NAME") w3) as [n w4];
        reflexivity.
    + exists w2. destruct (h _ (Getenv "DATABASE_URL") w2) as [u w3]. cbn.
      exists w3. destruct (h _ (Getenv "DATABASE_NAME") w3) as [n w4].
      reflexivity.
  - exists w1. destruct (h _ (Getenv "DATABASE_URL") w1) as [u w3]. cbn.
    exists w3. destruct (h _ (Getenv "DATABASE_NAME") w3) as [n w4].
    reflexivity.
  - destruct cls; cbn;
      exists w1; destruct (h _ (Getenv "DATABASE_URL") w1) as [u w3]; cbn;
      exists w3; destruct (h _ (Getenv "DATABASE_NAME") w3) as [n w4];
      reflexivity.
Qed.

(** What the probe leaves in [connection_status] and [collections]. *)
Lemma probe_database_connection (w : W) :
  let imp := h _ ImportDb w in
  exists s u n w' tr,
    run h (probe_database initial_response) w
    = (inl [("backend", PStr "✅ Running");
            ("database", s);
            ("database_url", u);
            ("database_name", n);
            ("connection_status",
             PStr (match fst imp with
                   | Ok (Some _) => "Connected"
                   | _ => "Not Connected"
                   end));
            ("collections",
             match fst imp with
             | Ok (Some db) =>
                 match fst (h _ (ListCollectionNames db) (snd imp)) with
                 | Ok names =>
                     match py_slice10 names with
                     | Ok first10 => first10
                     | Err _ => PList []
                     end
                 | Err _ => PList []
                 end
             | _ => PList []
             end)], w', tr).
Proof.
  intro imp. subst imp. unfold probe_database, call. cbn.
  destruct (h _ ImportDb w) as [[[db |] | [cls msg]] w1]; cbn.
  - destruct (h _ (ListCollectionNames db) w1) as [[names | [cls msg]] w2]; cbn.
    + destruct (py_slice10 names) as [first10 | [cls msg]]; cbn;
        do 5 eexists; reflexivity.
    + do 5 eexists; reflexivity.
  - do 5 eexists; reflexivity.
  - destruct cls; cbn; do 5 eexists; reflexivity.
Qed.

(** X20.  In the diagnostic object, [connection_status] is "Connected"
    exactly when the import answered a [db] that is not [None], whether or
    not the listing of collections then works; and [collections] is the
    first ten names in the order the store gave them when that listing
    works, and the empty list in every other state. *)
Theorem test_database_connection_and_collections (w : W) :
  let imp := h _ ImportDb w in
  exists response,
    outcome h get_test w = inl (mkHttp 200 (PDict response)) /\
    dict_get "connection_status" response
    = Some (PStr (match fst imp with
                  | Ok (Some _) => "Connected"
                  | _ => "Not Connected"
                  end)) /\
    dict_get "collections" response
    = Some (match fst imp with
            | Ok (Some db) =>
                match fst (h _ (ListCollectionNames db) (snd imp)) with
                | Ok (PList names) => PList (firstn 10 names)
                | Ok (PStr names) => PStr (str_prefix 10 names)
                | _ => PList []
                end
            | _ => PList []
            end).
Proof.
  intro imp.
  destruct (probe_database_connection w) as (s & u & n & w1 & tr & Hrun).
  fold imp in Hrun.
  unfold outcome, get_test. rewrite run_respond.
  unfold test_database. rewrite run_bind, Hrun.
  unfold report_configuration, perform. cbn.
  destruct (h _ (Getenv "DATABASE_URL") w1) as [url w2].
  destruct (h _ (Getenv "DATABASE_NAME") w2) as [name w3].
  cbn. eexists. split; [reflexivity|]. split; [reflexivity|].
  cbn. f_equal.
  destruct (fst imp) as [[db |] |]; try reflexivity.
  destruct (fst (h _ (ListCollectionNames db) (snd imp))) as [names |];
    [|reflexivity].
  destruct names; reflexivity.
Qed.

End MoreDiagnosticsFacts.

(** X16, witness: the query answers a stored transaction and a stray
    [None]; the transaction is not listed either. *)
Lemma list_transactions_one_stray_document_witness :
  In PNone [PDict stored_transaction; PNone] /\
  (forall dd, PNone <> PDict dd) /\
  outcome (answering_documents [PDict stored_transaction; PNone])
    (get_api_transactions str_basic 10) tt
  = inl (mkHttp 200 (PDict [("items", PList [])])).
Proof.
  assert (Hin : In PNone [PDict stored_transaction; PNone])
    by (right; left; reflexivity).
  assert (Hd : forall dd, PNone <> PDict dd) by (intros dd; discriminate).
  split; [exact Hin|]. split; [exact Hd|].
  exact (list_transactions_one_stray_document str_basic
           (answering_documents [PDict stored_transaction; PNone]) tt 10
           [PDict stored_transaction; PNone] PNone eq_refl eq_refl Hin Hd).
Defined.


(** A document that holds an [ObjectId] below its top level is returned by
    the handler as it is, and the route answers 500. *)
Example list_transactions_nested_object_id :
  outcome (answering_documents [PDict stored_with_nested_reference])
    (list_transactions str_basic 10) tt
  = inl (PDict [("items",
                 PList [PDict [("id", PStr "65a1b2c3d4e5f60718293a4b");
                               ("links",
                                PList [PObjectId "507f1f77bcf86cd799439011"])]])])
  /\
  outcome (answering_documents [PDict stored_with_nested_reference])
    (transactions_route str_basic 10) tt
  = inl (mkHttp 500 (PStr "Internal Server Error")).
Proof. split; reflexivity. Qed.

(** ** The conversion endpoint on malformed provider bodies *)

Section MalformedBodies.

Variable float_of_str : string -> option float.
Context {W : Type} (h : handler W).

(** X21.  When the provider's body decodes to JSON that is not an object,
    the conversion route fails with 500, not 502: the [AttributeError] of
    [data.get] is not a transport error. *)
Theorem convert_body_not_an_object (w : W) (payload : ConvertRequest)
    (r : Response) (data : pyval) :
  ConvertRequest_valid payload = true ->
  fst (h _ (RequestsGet (EXTERNAL_RATES_BASE ++ "/convert")
              (convert_params (upper (from_currency payload))
                 (upper (to_currency payload)) (amount payload)) 10) w)
  = Ok r ->
  status_code r < 400 \/ 600 <= status_code r ->
  json r = Ok data ->
  (forall d, data <> PDict d) ->
  outcome h (post_api_convert float_of_str payload) w
  = inl (mkHttp 500 (PStr "Internal Server Error")).
Proof.
  intros Hvalid Hr Hs Hj Hd. unfold outcome, post_api_convert. rewrite Hvalid.
  rewrite run_respond. unfold convert_currency. rewrite run_bind.
  unfold fetch_conversion. rewrite run_try_except, run_bind, run_call, Hr.
  cbn [fst snd lift bind]. rewrite (raise_for_status_no_error r Hs).
  cbn [lift bind]. rewrite Hj.
  destruct data; try reflexivity.
  exfalso. apply (Hd d). reflexivity.
Qed.

(** X22.  When the provider's body is an object without a failure flag
    whose [info] field is present but not an object (null, a number, a
    string), the conversion route fails with 500 even if the body carries a
    usable [result]: the rate is read before the result. *)
Theorem convert_info_not_an_object (w : W) (payload : ConvertRequest)
    (r : Response) (data : pydict) (info : pyval) :
  ConvertRequest_valid payload = true ->
  fst (h _ (RequestsGet (EXTERNAL_RATES_BASE ++ "/convert")
              (convert_params (upper (from_currency payload))
                 (upper (to_currency payload)) (amount payload)) 10) w)
  = Ok r ->
  status_code r < 400 \/ 600 <= status_code r ->
  json r = Ok (PDict data) ->
  no_failure_flag data = true ->
  dict_get "info" data = Some info ->
  (forall d, info <> PDict d) ->
  outcome h (post_api_convert float_of_str payload) w
  = inl (mkHttp 500 (PStr "Internal Server Error")).
Proof.
  intros Hvalid Hr Hs Hj Hf Hi Hd. unfold outcome, post_api_convert.
  rewrite Hvalid.
  rewrite run_respond. unfold convert_currency. rewrite run_bind.
  unfold fetch_conversion. rewrite run_try_except, run_bind, run_call, Hr.
  cbn [fst snd lift bind]. rewrite (raise_for_status_no_error r Hs).
  cbn [lift bind]. rewrite Hj. cbn [py_get lift bind].
  rewrite truthy_success, Hf. cbn [negb]. rewrite Hi.
  destruct info; try reflexivity.
  exfalso. apply (Hd d). reflexivity.
Qed.

End MalformedBodies.

(** X21, witness: a 200 answer whose body is a JSON list. *)
Lemma convert_body_not_an_object_witness :
  ConvertRequest_valid usd_to_eur = true /\
  (forall d, not_an_object <> PDict d) /\
  outcome (deployment configured) (post_api_convert float_of_digits usd_to_eur)
    (healthy not_an_object)
  = inl (mkHttp 500 (PStr "Internal Server Error")).
Proof.
  assert (Hd : forall d, not_an_object <> PDict d) by (intros d; discriminate).
  split; [reflexivity|]. split; [exact Hd|].
  exact (convert_body_not_an_object float_of_digits (deployment configured)
           (healthy not_an_object) usd_to_eur
           (mkResponse 200 "OK" (EXTERNAL_RATES_BASE ++ "/convert")
              (Ok not_an_object))
           not_an_object eq_refl eq_refl ltac:(cbn; lia) eq_refl Hd).
Defined.

(** X22, witness: a quote with a result and [info: null]. *)
Lemma convert_info_not_an_object_witness :
  ConvertRequest_valid usd_to_eur = true /\
  dict_get "info" [("result", PFloat 75%float); ("info", PNone)] = Some PNone /\
  outcome (deployment configured) (post_api_convert float_of_digits usd_to_eur)
    (healthy null_info_quote)
  = inl (mkHttp 500 (PStr "Internal Server Error")).
Proof.
  split; [reflexivity|]. split; [reflexivity|].
  exact (convert_info_not_an_object float_of_digits (deployment configured)
           (healthy null_info_quote) usd_to_eur
           (mkResponse 200 "OK" (EXTERNAL_RATES_BASE ++ "/convert")
              (Ok null_info_quote))
           [("result", PFloat 75%float); ("info", PNone)] PNone
           eq_refl eq_refl ltac:(cbn; lia) eq_refl eq_refl eq_refl
           ltac:(intros d; discriminate)).
Defined.
